(** * rtwo.driver: the Atmosphere service drivers

    A shallow embedding of [rtwo/driver.py] (Python 2): the generic
    [LibcloudDriver], the converting [EshDriver], and the OpenStack, AWS and
    Eucalyptus drivers, together with the properties of their contracts.

    Python objects are records, dictionaries are [gmap]s keyed by strings,
    exceptions are values of [exn], and a method is a function in the monad
    [M] that threads the observable world: the calls received by the
    connection, the records sent to the logger, and the heap of list objects
    that are shared by reference. *)

From Stdlib Require Import ZArith.
From stdpp Require Import gmap strings list fin_maps pretty.

Open Scope string_scope.
Open Scope Z_scope.

(** ** Python values *)

(** Immutable scalars: [None], booleans, integers and strings. *)
Inductive atom :=
| ANone
| ABool (b : bool)
| AInt (n : Z)
| AStr (s : string).

(** [a == b] on scalars. A [bool] is an [int] in Python, so [True == 1]. *)
Definition atom_num (a : atom) : option Z :=
  match a with
  | ABool b => Some (if b then 1 else 0)
  | AInt n => Some n
  | _ => None
  end.

Definition py_eq (a b : atom) : bool :=
  match a, b with
  | ANone, ANone => true
  | AStr s, AStr t => String.eqb s t
  | _, _ =>
      match atom_num a, atom_num b with
      | Some m, Some n => Z.eqb m n
      | _, _ => false
      end
  end.

(** [a in l] for a list literal of strings. *)
Definition py_in (a : atom) (l : list string) : bool :=
  existsb (fun w => py_eq a (AStr w)) l.

(** [w in s] for two strings: [w] occurs in [s] as a substring. *)
Fixpoint str_contains (w s : string) : bool :=
  String.prefix w s ||
  match s with
  | EmptyString => false
  | String _ s' => str_contains w s'
  end.

(** Raw libcloud objects, as the connection returns them. *)
Module Node.
Record t := { id : string; extra : gmap string atom }.
End Node.

Module NodeImage.
Record t := { id : string; name : string; extra : gmap string atom }.
End NodeImage.

Module NodeSize.
Record t := { id : string; name : string }.
End NodeSize.

Module StorageVolume.
Record t := { id : string; size : Z }.
End StorageVolume.

(** Domain objects, built from the raw ones by the provider's classes. *)
Module EshInstance.
Record t := { _node : Node.t; id : string; extra : gmap string atom }.
End EshInstance.

Module EshMachine.
Record t := { _image : NodeImage.t; alias : string }.
End EshMachine.

Module EshSize.
Record t := { _size : NodeSize.t }.
End EshSize.

Module EshVolume.
Record t := { _volume : StorageVolume.t }.
End EshVolume.

(** libcloud deployment steps. [LoggedScriptDeployment] is the subclass of
    [rtwo.drivers.common] that carries a log file. *)
#[warnings="-register-all"]
Inductive Deployment :=
| ScriptDeployment (script : string) (name : string)
| LoggedScriptDeployment (script : string) (name : string) (logfile : string)
| MultiStepDeployment (add : list Deployment).

(** What a caller can pass in [*args] and [**kwargs]. *)
Inductive value :=
| VAtom (a : atom)
| VNode (n : Node.t)
| VInstance (i : EshInstance.t)
| VDeployment (d : Deployment)
| VObject (repr : string).

Definition VNone : value := VAtom ANone.
Definition VBool (b : bool) : value := VAtom (ABool b).
Definition VInt (n : Z) : value := VAtom (AInt n).
Definition VStr (s : string) : value := VAtom (AStr s).

(** Truth value of an object: [None], [False], [0] and [''] are false; the
    classes above define neither [__nonzero__] nor [__len__], and [VObject]
    stands for any other object that is true. *)
Definition truthy (v : value) : bool :=
  match v with
  | VAtom ANone => false
  | VAtom (ABool b) => b
  | VAtom (AInt n) => negb (Z.eqb n 0)
  | VAtom (AStr s) => negb (String.eqb s EmptyString)
  | _ => true
  end.

Abbreviation kwargs_t := (gmap string value).

(** [kwargs.get(k)] and [kwargs.get(k, d)]. *)
Definition dict_get (kwargs : kwargs_t) (k : string) : value :=
  default VNone (kwargs !! k).

Definition dict_get_default (kwargs : kwargs_t) (k : string) (d : value)
  : value :=
  default d (kwargs !! k).

(** ** Exceptions and results *)

Inductive exn :=
| MissingArgsException (msg : string)
| ServiceException (msg : string)
| NotImplementedError
| AttributeError (msg : string)
| KeyError (key : string)
| TypeError (msg : string)
| DeploymentError (value : string)
| LibcloudError (msg : string).

Inductive Result (A : Type) :=
| Ok (a : A)
| Raise (e : exn).
Arguments Ok {A} a.
Arguments Raise {A} e.

Definition result_bind {A B} (r : Result A) (k : A -> Result B) : Result B :=
  match r with
  | Ok a => k a
  | Raise e => Raise e
  end.

(** [d[k]]. *)
Definition getitem (d : gmap string atom) (k : string) : Result atom :=
  match d !! k with
  | Some a => Ok a
  | None => Raise (KeyError k)
  end.

(** [any(f(x) for x in l)]: stops at the first true element, and at the
    first element whose test raises. *)
Fixpoint any_ {A} (f : A -> Result bool) (l : list A) : Result bool :=
  match l with
  | [] => Ok false
  | x :: l' =>
      match f x with
      | Ok true => Ok true
      | Ok false => any_ f l'
      | Raise e => Raise e
      end
  end.

(** [[m for m in ms if cond(m)]]. *)
Fixpoint _filter_machines {A} (ms : list A) (cond : A -> Result bool)
  : Result (list A) :=
  match ms with
  | [] => Ok []
  | m :: ms' =>
      match cond m with
      | Ok b =>
          match _filter_machines ms' cond with
          | Ok r => Ok (if b then m :: r else r)
          | Raise e => Raise e
          end
      | Raise e => Raise e
      end
  end.

(** ** The world a method runs in *)

(** One call received by the connection: the primitive's name and the
    positional and keyword arguments it was given. *)
Record call := Call {
  call_name : string;
  call_args : list value;
  call_kwargs : gmap string value
}.

Inductive log_level := DEBUG | INFO | ERROR.

(** A record sent to [threepio.logger]: a message, or [sys.exc_info()] of the
    exception being handled. *)
Inductive log_payload :=
| LogMsg (msg : string)
| LogExcInfo (e : exn).

(** A Python list object is referred to by its address; in-place updates are
    seen by everyone who holds the address. *)
Abbreviation loc := positive.

Record World := mkWorld {
  history : list call;
  logs : list (log_level * log_payload);
  heap : gmap loc (list string)
}.

Definition M (A : Type) : Type := World -> Result A * World.

Definition ret {A} (a : A) : M A := fun w => (Ok a, w).

Definition raise {A} (e : exn) : M A := fun w => (Raise e, w).

Definition bind {A B} (m : M A) (k : A -> M B) : M B :=
  fun w =>
    match m w with
    | (Ok a, w') => k a w'
    | (Raise e, w') => (Raise e, w')
    end.

Definition lift {A} (r : Result A) : M A := fun w => (r, w).

(** [try: m  except DeploymentError as de: h(de.value)]: only a
    [DeploymentError] is handled, anything else keeps propagating. *)
Definition try_except_DeploymentError {A} (m : M A) (h : exn -> string -> M A)
  : M A :=
  fun w =>
    match m w with
    | (Raise (DeploymentError v), w') => h (DeploymentError v) v w'
    | rw => rw
    end.

Declare Scope py_scope.
Delimit Scope py_scope with py.
Notation "x <- m ;; k" := (bind m (fun x => k))
  (at level 100, m at next level, right associativity) : py_scope.
Notation "m ;;; k" := (bind m (fun _ => k))
  (at level 100, right associativity) : py_scope.
Open Scope py_scope.

Definition logger (lvl : log_level) (p : log_payload) : M unit :=
  fun w => (Ok tt, mkWorld (history w) (logs w ++ [(lvl, p)]) (heap w)).

(** ** Connection, identity, provider *)

(** The libcloud connection, as a stub sees it: each primitive answers from
    its arguments and from the calls the connection has received so far, and
    either returns or raises. The two region fields are the ones the
    OpenStack driver pins. *)
Record Connection := {
  list_nodes : list call -> Result (list Node.t);
  list_images : list call -> Result (list NodeImage.t);
  list_sizes : list call -> Result (list NodeSize.t);
  list_volumes : list value -> gmap string value -> list call ->
                 Result (list StorageVolume.t);
  deploy_node : list value -> gmap string value -> list call -> Result Node.t;
  ex_deploy_to_node : list value -> gmap string value -> list call ->
                      Result value;
  _ex_force_service_region : option string;
  service_region : option string
}.

(** Invoking a primitive: the stub answers from the calls seen so far, and
    the call is appended to them whether it returns or raises. *)
Definition invoke {A} (name : string) (args : list value)
    (kwargs : gmap string value) (prim : list call -> Result A) : M A :=
  fun w =>
    (prim (history w),
     mkWorld (history w ++ [Call name args kwargs]) (logs w) (heap w)).

(** [identity.user]: a plain string, or a
    [django.contrib.auth.models.User] with a [username]. *)
Inductive User :=
| UserString (s : string)
| UserObject (username : string).

Inductive IdentityCls := AWSIdentity | EucaIdentity | OSIdentity.

Record Identity := {
  identity_cls : IdentityCls;
  user : User
}.

Inductive ProviderCls := AWSProvider | EucaProvider | OSProvider.

#[global] Instance IdentityCls_eq_dec : EqDecision IdentityCls.
Proof. solve_decision. Defined.

#[global] Instance ProviderCls_eq_dec : EqDecision ProviderCls.
Proof. solve_decision. Defined.

(** The provider names the classes that turn raw objects into domain
    objects, and opens the connection for an identity. *)
Record Provider := {
  provider_cls : ProviderCls;
  get_driver : Identity -> Result Connection;
  instanceCls : Node.t -> EshInstance.t;
  machineCls : NodeImage.t -> EshMachine.t;
  sizeCls : NodeSize.t -> EshSize.t;
  volumeCls : StorageVolume.t -> EshVolume.t
}.

(** [user.username]. A [str] has no such attribute. *)
Definition getattr_username (u : User) : Result string :=
  match u with
  | UserObject n => Ok n
  | UserString _ =>
      Raise (AttributeError "'str' object has no attribute 'username'")
  end.

(** [instance._node] and [instance.id] of a positional argument. *)
Definition getattr__node (v : value) : Result Node.t :=
  match v with
  | VInstance i => Ok (EshInstance._node i)
  | _ => Raise (AttributeError "object has no attribute '_node'")
  end.

Definition getattr_id (v : value) : Result value :=
  match v with
  | VInstance i => Ok (VStr (EshInstance.id i))
  | VNode n => Ok (VStr (Node.id n))
  | _ => Raise (AttributeError "object has no attribute 'id'")
  end.

(** ** Drivers *)

Inductive DriverCls :=
| LibcloudDriver
| EshDriver
| OSDriver
| AWSDriver
| EucaDriver.

(** The class attributes [providerCls] and [identityCls]: [None] on the base
    classes, bound by each specialized driver. *)
Definition providerCls (cls : DriverCls) : option ProviderCls :=
  match cls with
  | OSDriver => Some OSProvider
  | AWSDriver => Some AWSProvider
  | EucaDriver => Some EucaProvider
  | LibcloudDriver | EshDriver => None
  end.

Definition identityCls (cls : DriverCls) : option IdentityCls :=
  match cls with
  | OSDriver => Some OSIdentity
  | AWSDriver => Some AWSIdentity
  | EucaDriver => Some EucaIdentity
  | LibcloudDriver | EshDriver => None
  end.

Record Driver := {
  driver_cls : DriverCls;
  provider : Provider;
  identity : Identity;
  _connection : Connection
}.

Definition isinstance_arg2 : string :=
  "isinstance() arg 2 must be a class, type, or tuple of classes and types".

(** [isinstance(obj, cls)], with [cls] read from a class attribute that may
    still be [None]. *)
Definition isinstance {A} `{EqDecision A} (c : A) (cls : option A)
  : Result bool :=
  match cls with
  | Some k => Ok (bool_decide (c = k))
  | None =>
      Raise (TypeError isinstance_arg2)
  end.

(** [LibcloudDriver.__init__]. The arguments are [None] or an object. *)
Definition LibcloudDriver__init__ (cls : DriverCls)
    (prov : option Provider) (ident : option Identity) : Result Driver :=
  match prov, ident with
  | Some p, Some i =>
      result_bind (get_driver p i) (fun conn =>
      Ok {| driver_cls := cls; provider := p; identity := i;
            _connection := conn |})
  | _, _ =>
      Raise (MissingArgsException
        "LibcloudDriver is Missing Required Identity and/or Provider.")
  end.

(** [EshDriver.__init__]: the generic constructor runs first, then the
    classes of the two arguments are checked; [and] does not evaluate its
    second operand when the first is false. *)
Definition EshDriver__init__ (cls : DriverCls)
    (prov : option Provider) (ident : option Identity) : Result Driver :=
  result_bind (LibcloudDriver__init__ cls prov ident) (fun self =>
  result_bind (isinstance (provider_cls (provider self))
                          (providerCls cls)) (fun okp =>
  result_bind (if okp
               then isinstance (identity_cls (identity self)) (identityCls cls)
               else Ok false) (fun ok =>
  if ok then Ok self
  else Raise (ServiceException "Wrong Provider or Identity")))).

(** The settings module, read by the specialized drivers. *)
Record Settings := {
  SERVER_URL : string;
  INSTANCE_SERVICE_URL : string;
  ATMOSPHERE_VNC_LICENSE : string;
  OPENSTACK_DEFAULT_REGION : string
}.

Section Drivers.

Variable settings : Settings.

(** [str(obj)] of an object that is not a scalar; it is defined by the
    object's class, outside this module. *)
Variable str_of_object : value -> string.

(** [OSDriver.__init__]: pins the region in both places. *)
Definition OSDriver__init__ (prov : option Provider)
    (ident : option Identity) : Result Driver :=
  result_bind (EshDriver__init__ OSDriver prov ident) (fun self =>
  let c := _connection self in
  Ok {| driver_cls := driver_cls self;
        provider := provider self;
        identity := identity self;
        _connection :=
          {| list_nodes := list_nodes c;
             list_images := list_images c;
             list_sizes := list_sizes c;
             list_volumes := list_volumes c;
             deploy_node := deploy_node c;
             ex_deploy_to_node := ex_deploy_to_node c;
             _ex_force_service_region :=
               Some (OPENSTACK_DEFAULT_REGION settings);
             service_region := Some (OPENSTACK_DEFAULT_REGION settings) |} |}).

(** [cls(provider, identity)]: the constructor that the class resolves to.
    The AWS and Eucalyptus drivers inherit [EshDriver.__init__]. *)
Definition new_driver (cls : DriverCls) (prov : option Provider)
    (ident : option Identity) : Result Driver :=
  match cls with
  | LibcloudDriver => LibcloudDriver__init__ cls prov ident
  | OSDriver => OSDriver__init__ prov ident
  | EshDriver | AWSDriver | EucaDriver => EshDriver__init__ cls prov ident
  end.

(** *** LibcloudDriver: direct access to the connection *)

Definition LibcloudDriver_list_instances (self : Driver)
    (args : list value) (kwargs : gmap string value) : M (list Node.t) :=
  invoke "list_nodes" [] ∅ (list_nodes (_connection self)).

Definition LibcloudDriver_list_machines (self : Driver)
    (args : list value) (kwargs : gmap string value) : M (list NodeImage.t) :=
  invoke "list_images" [] ∅ (list_images (_connection self)).

Definition LibcloudDriver_list_sizes (self : Driver)
    (args : list value) (kwargs : gmap string value) : M (list NodeSize.t) :=
  invoke "list_sizes" [] ∅ (list_sizes (_connection self)).

Definition LibcloudDriver_list_volumes (self : Driver)
    (args : list value) (kwargs : gmap string value)
  : M (list StorageVolume.t) :=
  invoke "list_volumes" args kwargs
         (list_volumes (_connection self) args kwargs).

(** *** The class methods of the domain classes *)

(** Modelled from the spec: [Instance.get_instances] ([rtwo.instance]) is
    not part of this module. The spec has each read operation convert the
    raw results with the provider's conversion function for that kind of
    object, element by element, keeping count and order; it is handed the
    raw list. *)
Definition get_instances (cls : Node.t -> EshInstance.t)
    (nodes : list Node.t) : list EshInstance.t :=
  map cls nodes.

(** Modelled from the spec: [Volume.get_volumes] ([rtwo.volume]) is not
    part of this module; it is handed the raw list and wraps each element. *)
Definition get_volumes (cls : StorageVolume.t -> EshVolume.t)
    (volumes : list StorageVolume.t) : list EshVolume.t :=
  map cls volumes.

(** Modelled from the spec: [Machine.get_machines] ([rtwo.machine]) is not
    part of this module; it is handed the bound listing method, calls it
    without arguments and wraps each element of what it returns. *)
Definition get_machines (cls : NodeImage.t -> EshMachine.t)
    (lc_list_images_method :
       list value -> gmap string value -> M (list NodeImage.t))
  : M (list EshMachine.t) :=
  images <- lc_list_images_method [] ∅ ;;
  ret (map cls images).

(** Modelled from the spec: [Size.get_sizes] ([rtwo.size]) is not part of
    this module; it is handed the bound listing method, calls it without
    arguments and wraps each element of what it returns. *)
Definition get_sizes (cls : NodeSize.t -> EshSize.t)
    (lc_list_sizes_method :
       list value -> gmap string value -> M (list NodeSize.t))
  : M (list EshSize.t) :=
  sizes <- lc_list_sizes_method [] ∅ ;;
  ret (map cls sizes).

(** *** EshDriver: the same reads, converted *)

Definition EshDriver_list_instances (self : Driver)
    (args : list value) (kwargs : gmap string value) : M (list EshInstance.t) :=
  nodes <- LibcloudDriver_list_instances self [] ∅ ;;
  ret (get_instances (instanceCls (provider self)) nodes).

Definition EshDriver_list_machines (self : Driver)
    (args : list value) (kwargs : gmap string value) : M (list EshMachine.t) :=
  get_machines (machineCls (provider self)) (LibcloudDriver_list_machines self).

Definition EshDriver_list_sizes (self : Driver)
    (args : list value) (kwargs : gmap string value) : M (list EshSize.t) :=
  get_sizes (sizeCls (provider self)) (LibcloudDriver_list_sizes self).

Definition EshDriver_list_volumes (self : Driver)
    (args : list value) (kwargs : gmap string value) : M (list EshVolume.t) :=
  volumes <- LibcloudDriver_list_volumes self args kwargs ;;
  ret (get_volumes (volumeCls (provider self)) volumes).

(** *** OSDriver *)

Definition private_key : string := "/opt/dev/atmosphere/extras/ssh/id_rsa".

(** [str(v)], as the [%s] conversion applies it. *)
Definition py_str (v : value) : string :=
  match v with
  | VAtom ANone => "None"
  | VAtom (ABool b) => if b then "True" else "False"
  | VAtom (AInt n) => pretty n
  | VAtom (AStr s) => s
  | _ => str_of_object v
  end.

(** [self.deploy_node]: the attribute is looked up on the driver itself. No
    class of the driver gives it one: [deploy_node] is a primitive of the
    connection, which [LibcloudDriver.deploy_instance] reaches through
    [self._connection]. The lookup therefore raises, before any argument is
    handed over. *)
Definition getattr_deploy_node (self : Driver)
  : Result (list value -> gmap string value -> M Node.t) :=
  Raise (AttributeError "'OSDriver' object has no attribute 'deploy_node'").

(** [if not kwargs.get(k): kwargs.update({k: v})]. *)
Definition update_if_not (kwargs : gmap string value) (k : string) (v : value)
  : gmap string value :=
  if negb (truthy (dict_get kwargs k)) then <[k := v]> kwargs else kwargs.

Definition OSDriver_deploy_to (self : Driver) (args : list value)
    (kwargs : gmap string value) : M bool :=
  instance <- match args with
              | a :: _ => ret a
              | [] => raise (MissingArgsException "Missing instance argument.")
              end ;;
  if negb (truthy (dict_get kwargs "deploy"))
  then raise (MissingArgsException "Missing deploy argument.")
  else
    let kwargs := update_if_not kwargs "ssh_key" (VStr private_key) in
    let kwargs := update_if_not kwargs "timeout" (VInt 120) in
    username <- lift (getattr_username (user (identity self))) ;;
    (logger INFO (LogMsg "Attempting deployment to node") ;;;
    (node <- lift (getattr__node instance) ;;
    (invoke "ex_deploy_to_node" (VNode node :: args) kwargs
       (ex_deploy_to_node (_connection self) (VNode node :: args) kwargs) ;;;
    ret true))).

Definition atmo_init : string := "/usr/sbin/atmo_init_full.py".
Definition server_atmo_init : string := "/init_files/30/atmo-init-full.py".
Definition deploy_log : string := "/var/log/atmo/deploy.log".

(** The newline and the double quote of the shell script below. *)
Definition nl : string := String (Ascii.ascii_of_nat 10) EmptyString.
Definition dq : string := String (Ascii.ascii_of_nat 34) EmptyString.

Definition script_init : Deployment :=
  ScriptDeployment
    ("if [ ! -d " +:+ dq +:+ "/var/log/atmo" +:+ dq +:+ " ];then" +:+ nl
     +:+ "mkdir -p /var/log/atmo" +:+ nl
     +:+ "fi" +:+ nl
     +:+ "if [ ! -f " +:+ dq +:+ "/var/log/atmo/deploy.log" +:+ dq
     +:+ " ]; then" +:+ nl
     +:+ "touch /var/log/atmo/deploy.log" +:+ nl
     +:+ "fi")
    "deploy_init_log.sh".

Definition script_deps : Deployment :=
  LoggedScriptDeployment
    ("apt-get update;apt-get install -y emacs vim wget language-pack-en"
     +:+ " make gcc g++ gettext texinfo autoconf automake")
    "deploy_aptget_update.sh"
    deploy_log.

Definition script_wget : Deployment :=
  LoggedScriptDeployment
    ("wget -O " +:+ atmo_init +:+ " " +:+ SERVER_URL settings
     +:+ server_atmo_init)
    "deploy_wget_atmoinit.sh"
    deploy_log.

Definition script_chmod : Deployment :=
  LoggedScriptDeployment
    ("chmod a+x " +:+ atmo_init)
    "deploy_chmod_atmoinit.sh"
    deploy_log.

(** The agent invocation, [awesome_atmo_call] after the [%] conversion. *)
Definition awesome_atmo_call (username : string) (instance_token : value)
  : string :=
  atmo_init +:+ " --service_type=" +:+ "instance_service_v1"
  +:+ " --service_url=" +:+ INSTANCE_SERVICE_URL settings
  +:+ " --server=" +:+ SERVER_URL settings
  +:+ " --user_id=" +:+ username
  +:+ " --token=" +:+ py_str instance_token
  +:+ " --vnc_license=" +:+ ATMOSPHERE_VNC_LICENSE settings.

Definition script_atmo_init (username : string) (instance_token : value)
  : Deployment :=
  LoggedScriptDeployment
    (awesome_atmo_call username instance_token)
    "deploy_call_atmoinit.sh"
    deploy_log.

Definition OSDriver_deploy_init_to (self : Driver) (args : list value)
    (kwargs : gmap string value) : M bool :=
  instance <- match args with
              | a :: _ => ret a
              | [] => raise (MissingArgsException "Missing instance argument.")
              end ;;
  username <- match user (identity self) with
              | UserString s => ret s
              | UserObject _ =>
                  lift (getattr_username (user (identity self)))
              end ;;
  let instance_token := dict_get_default kwargs "token" (VStr EmptyString) in
  instance_token <- (if negb (truthy instance_token)
                     then lift (getattr_id instance)
                     else ret instance_token) ;;
  let msd := MultiStepDeployment [script_init;
                                  script_deps;
                                  script_wget;
                                  script_chmod;
                                  script_atmo_init username instance_token] in
  let kwargs := <["deploy" := VDeployment msd]> kwargs in
  let kwargs := <["ssh_key" := VStr private_key]> kwargs in
  let kwargs := <["timeout" := VInt 120]> kwargs in
  OSDriver_deploy_to self (instance :: args) kwargs.

Definition OSDriver_deploy_instance (self : Driver) (args : list value)
    (kwargs : gmap string value) : M bool :=
  if negb (truthy (dict_get kwargs "deploy"))
  then raise (MissingArgsException "Missing deploy argument.")
  else
    username <- lift (getattr_username (user (identity self))) ;;
    let kwargs := <["ssh_key" := VStr private_key]> kwargs in
    let kwargs := <["timeout" := VInt 120]> kwargs in
    returned <- try_except_DeploymentError
        (deploy_node <- lift (getattr_deploy_node self) ;;
         (deploy_node args kwargs ;;; ret None))
        (fun de value =>
           logger ERROR (LogExcInfo de) ;;;
           (logger ERROR (LogMsg value) ;;;
           ret (Some false))) ;;
    match returned with
    | Some b => ret b
    | None => ret true
    end.

Definition _is_active_instance (self : Driver) (instance : EshInstance.t)
  : Result bool :=
  result_bind (getitem (EshInstance.extra instance) "status") (fun status =>
  result_bind (getitem (EshInstance.extra instance) "task") (fun task =>
  result_bind (getitem (EshInstance.extra instance) "power") (fun power =>
  if py_eq status (AStr "active")
  then
    if negb (py_in task ["deleting"; "suspending"])
    then Ok true
    else Ok false
  else
    if (py_eq status (AStr "build") || py_eq status (AStr "resize"))
       && negb (py_eq task (AStr "deleting"))
    then Ok true
    else Ok false))).

End Drivers.

(** *** AWSDriver *)

(** The list object at an address; an address the heap does not hold yet is
    a list nobody has appended to. *)
Definition heap_list (w : World) (l : loc) : list string :=
  default [] (heap w !! l).

Definition list_read (l : loc) : M (list string) :=
  fun w => (Ok (heap_list w l), w).

(** [l.extend(xs)]: in place. *)
Definition list_extend (l : loc) (xs : list string) : M unit :=
  fun w =>
    (Ok tt,
     mkWorld (history w) (logs w)
             (<[l := (heap_list w l ++ xs)%list]> (heap w))).

(** The default of [black_list] is evaluated once, when the method is
    defined: every call that omits the argument receives this same list. *)
Definition filter_machines__defaults__ : loc := 1%positive.

(** The world right after the module is imported: nothing called, nothing
    logged, and the default list still empty. *)
Definition world0 : World := mkWorld [] [] ∅.

Section Filter.

(** Whether a block-list word matches a machine, as the inherited filter
    decides it. *)
Variable matches : string -> EshMachine.t -> bool.

(** Modelled from the spec: [APIFilterMixin.filter_machines]
    ([rtwo.mixins.driver]) is not part of this module. The spec has the
    inherited generic filter exclude the machines whose metadata matches a
    word of the block-list it is given, and keep the others in order. *)
Definition APIFilterMixin_filter_machines (self : Driver)
    (machines : list EshMachine.t) (black_list : loc)
  : M (list EshMachine.t) :=
  words <- list_read black_list ;;
  ret (List.filter (fun m => negb (existsb (fun word => matches word m) words))
                   machines).

Definition alias_cond (m : EshMachine.t) : Result bool :=
  any_ (fun word => Ok (str_contains word (EshMachine.alias m)))
       ["aki-"; "ari-"].

Definition ownerid_cond (m : EshMachine.t) : Result bool :=
  any_ (fun word =>
          result_bind
            (getitem (NodeImage.extra (EshMachine._image m)) "ownerid")
            (fun v => Ok (py_eq (AStr word) v)))
       ["099720109477"].

Definition owneralias_cond (m : EshMachine.t) : Result bool :=
  any_ (fun word =>
          result_bind
            (getitem (NodeImage.extra (EshMachine._image m)) "owneralias")
            (fun v => Ok (py_eq (AStr word) v)))
       ["amazon"; "aws-marketplace"].

(** [AWSDriver.filter_machines(machines, black_list)]; [black_list] is the
    address of the caller's list, or [None] when the argument is omitted. *)
Definition AWSDriver_filter_machines (self : Driver)
    (machines : list EshMachine.t) (black_list : option loc)
  : M (list EshMachine.t) :=
  let black_list := default filter_machines__defaults__ black_list in
  list_extend black_list ["bitnami"; "kernel"; "microsoft"; "Windows"] ;;;
  (filtered_machines <-
     APIFilterMixin_filter_machines self machines black_list ;;
  filtered_machines <- lift (_filter_machines filtered_machines alias_cond) ;;
  filtered_ubuntu <- lift (_filter_machines filtered_machines ownerid_cond) ;;
  filtered_amazon <-
    lift (_filter_machines filtered_machines owneralias_cond) ;;
  ret (filtered_ubuntu ++ filtered_amazon)%list).

End Filter.

(** ** Specification-side definitions and stub objects *)

(** The classification in the words of the specification. *)
Definition active_by_spec (status task : atom) : Prop :=
  (status = AStr "active"
   /\ task <> AStr "deleting" /\ task <> AStr "suspending")
  \/ ((status = AStr "build" \/ status = AStr "resize")
      /\ task <> AStr "deleting").

(** An instance as the OpenStack connection reports it. *)
Definition example_instance (status task : atom) : EshInstance.t :=
  {| EshInstance._node := {| Node.id := "i-1"; Node.extra := ∅ |};
     EshInstance.id := "i-1";
     EshInstance.extra :=
       <["status" := status]> (<["task" := task]>
         (<["power" := AInt 1]> ∅)) |}.


(** The specification's words for a converted read: failure is passed on,
    and on success the result has as many elements as the raw list, with the
    element at each position being the conversion of the raw element at
    that position. *)
Definition wrapped_in_order {A B} (cls : A -> B) (raw : Result (list A))
    (out : Result (list B)) : Prop :=
  match raw, out with
  | Ok l, Ok l' =>
      length l' = length l
      /\ forall (i : nat) (x : A), l !! i = Some x -> l' !! i = Some (cls x)
  | Raise e, Raise e' => e = e'
  | _, _ => False
  end.

(** A specialized driver binds a provider class and an identity class. *)
Definition specialized (cls : DriverCls) : Prop :=
  cls = OSDriver \/ cls = AWSDriver \/ cls = EucaDriver.

(** The provider or the identity is not of the class the driver binds. *)
Definition mismatched (cls : DriverCls) (p : Provider) (i : Identity) : Prop :=
  providerCls cls <> Some (provider_cls p)
  \/ identityCls cls <> Some (identity_cls i).

(** The keyword arguments [deploy_init_to] hands to [deploy_to]: the
    caller's, after the three unconditional updates. *)
Definition delegated_kwargs (msd : Deployment) (kwargs : gmap string value)
  : gmap string value :=
  <["timeout" := VInt 120]>
    (<["ssh_key" := VStr private_key]>
       (<["deploy" := VDeployment msd]> kwargs)).

(** The five-step plan of [deploy_init_to] for a user name and a token. *)
Definition init_plan (settings : Settings) (str_of_object : value -> string)
    (username : string) (instance_token : value) : Deployment :=
  MultiStepDeployment
    [script_init; script_deps; script_wget settings; script_chmod;
     script_atmo_init settings str_of_object username instance_token].

(** The token [deploy_init_to] uses: the caller's, or the instance's id. *)
Definition init_token (kwargs : gmap string value) (i : EshInstance.t)
  : value :=
  if truthy (dict_get_default kwargs "token" (VStr EmptyString))
  then dict_get_default kwargs "token" (VStr EmptyString)
  else VStr (EshInstance.id i).

(** The name an identity's user resolves to, in either representation. *)
Definition user_name (u : User) : string :=
  match u with
  | UserString s => s
  | UserObject n => n
  end.

(** During a run from [w] to [w'] the connection received the call [c],
    and no other. *)
Definition received (c : call) (w w' : World) : Prop :=
  history w' = (history w ++ [c])%list.

(** The terms [AWSDriver.filter_machines] appends to the block-list. *)
Definition fixed_terms : list string :=
  ["bitnami"; "kernel"; "microsoft"; "Windows"].

(** The three keep-filters of the specification, as predicates. *)
Definition blocked (matches : string -> EshMachine.t -> bool)
    (words : list string) (m : EshMachine.t) : bool :=
  existsb (fun word => matches word m) words.

Definition has_kernel_alias (m : EshMachine.t) : bool :=
  str_contains "aki-" (EshMachine.alias m)
  || str_contains "ari-" (EshMachine.alias m).

Definition owner_id_match (m : EshMachine.t) : bool :=
  match NodeImage.extra (EshMachine._image m) !! "ownerid" with
  | Some v => py_eq (AStr "099720109477") v
  | None => false
  end.

Definition owner_alias_match (m : EshMachine.t) : bool :=
  match NodeImage.extra (EshMachine._image m) !! "owneralias" with
  | Some v => py_eq (AStr "amazon") v || py_eq (AStr "aws-marketplace") v
  | None => false
  end.

(** The machines that pass the block-list and the alias stage. *)
Definition survivors (matches : string -> EshMachine.t -> bool)
    (words : list string) (machines : list EshMachine.t)
  : list EshMachine.t :=
  List.filter has_kernel_alias
    (List.filter (fun m => negb (blocked matches words m)) machines).

(** An EC2 image reports both its owner id and its owner alias. *)
Definition has_owner (m : EshMachine.t) : Prop :=
  is_Some (NodeImage.extra (EshMachine._image m) !! "ownerid")
  /\ is_Some (NodeImage.extra (EshMachine._image m) !! "owneralias").

(** The heap after [l.extend(xs)]. *)
Definition extended (w : World) (l : loc) (xs : list string) : World :=
  mkWorld (history w) (logs w) (<[l := (heap_list w l ++ xs)%list]> (heap w)).

(** A stub connection: two nodes, one image, one size and one volume to
    list, and fixed outcomes for the two deployment primitives. *)
Definition node1 : Node.t :=
  {| Node.id := "i-1"; Node.extra := <["status" := AStr "active"]> ∅ |}.
Definition node2 : Node.t :=
  {| Node.id := "i-2"; Node.extra := <["status" := AStr "build"]> ∅ |}.

Definition stub_connection (deploy_outcome : Result Node.t)
    (deploy_to_outcome : Result value) : Connection :=
  {| list_nodes := fun _ => Ok [node1; node2];
     list_images := fun _ =>
       Ok [{| NodeImage.id := "emi-1"; NodeImage.name := "ubuntu";
              NodeImage.extra := ∅ |}];
     list_sizes := fun _ =>
       Ok [{| NodeSize.id := "1"; NodeSize.name := "m1.small" |}];
     list_volumes := fun _ _ _ =>
       Ok [{| StorageVolume.id := "vol-1"; StorageVolume.size := 10 |}];
     deploy_node := fun _ _ _ => deploy_outcome;
     ex_deploy_to_node := fun _ _ _ => deploy_to_outcome;
     _ex_force_service_region := None;
     service_region := None |}.

(** A provider of a given class whose domain classes wrap the raw object. *)
Definition stub_provider (cls : ProviderCls)
    (opened : Identity -> Result Connection) : Provider :=
  {| provider_cls := cls;
     get_driver := opened;
     instanceCls := fun n =>
       {| EshInstance._node := n; EshInstance.id := Node.id n;
          EshInstance.extra := Node.extra n |};
     machineCls := fun i =>
       {| EshMachine._image := i; EshMachine.alias := NodeImage.name i |};
     sizeCls := fun s => {| EshSize._size := s |};
     volumeCls := fun v => {| EshVolume._volume := v |} |}.

Definition stub_settings : Settings :=
  {| SERVER_URL := "https://atmo.example.org";
     INSTANCE_SERVICE_URL := "https://atmo.example.org/api/v1/instancequery/";
     ATMOSPHERE_VNC_LICENSE := "LICENSE";
     OPENSTACK_DEFAULT_REGION := "RegionOne" |}.

Definition stub_str_of_object (v : value) : string := "<object>".

(** An OpenStack driver over a stub connection, for a given user. *)
Definition stub_OSDriver (u : User) (deploy_outcome : Result Node.t)
    (deploy_to_outcome : Result value) : Driver :=
  {| driver_cls := OSDriver;
     provider :=
       stub_provider OSProvider
         (fun _ => Ok (stub_connection deploy_outcome deploy_to_outcome));
     identity := {| identity_cls := OSIdentity; user := u |};
     _connection := stub_connection deploy_outcome deploy_to_outcome |}.

Definition alice : User := UserObject "alice".

Definition stub_driver : Driver :=
  stub_OSDriver alice (Ok node1) (Ok (VNode node1)).

(** A Eucalyptus provider that cannot open its connection. *)
Definition unreachable_provider : Provider :=
  stub_provider EucaProvider
    (fun _ => Raise (LibcloudError "connection refused")).

Definition os_identity : Identity :=
  {| identity_cls := OSIdentity; user := alice |}.

(** A driver whose connection fails every deployment. *)
Definition failing_driver : Driver :=
  stub_OSDriver alice (Raise (DeploymentError "ssh timeout"))
    (Raise (DeploymentError "ssh timeout")).

(** A driver whose identity carries the user as a plain string. *)
Definition string_user_driver : Driver :=
  stub_OSDriver (UserString "alice") (Ok node1) (Ok (VNode node1)).

Definition plan_kwargs : gmap string value :=
  {[ "deploy" := VDeployment script_init ]}.

Definition instance1 : EshInstance.t :=
  instanceCls (provider stub_driver) node1.

(** Keyword arguments by which a caller tries to choose key and timeout. *)
Definition override_kwargs : gmap string value :=
  <["ssh_key" := VStr "/home/me/.ssh/id_rsa"]> (<["timeout" := VInt 600]> ∅).

(** The four machines of the specification's example. *)
Definition ec2_machine (alias ownerid : string) (owneralias : atom)
  : EshMachine.t :=
  {| EshMachine._image :=
       {| NodeImage.id := alias; NodeImage.name := alias;
          NodeImage.extra :=
            <["ownerid" := AStr ownerid]>
              (<["owneralias" := owneralias]> ∅) |};
     EshMachine.alias := alias |}.

Definition machine_A : EshMachine.t :=
  ec2_machine "aki-1" "099720109477" ANone.
Definition machine_B : EshMachine.t :=
  ec2_machine "ari-2" "137112412989" (AStr "amazon").
Definition machine_C : EshMachine.t :=
  ec2_machine "m1" "999" ANone.
Definition machine_D : EshMachine.t :=
  ec2_machine "aki-x" "979382823631" (AStr "bitnami").

(** A block-list word matches a machine when it occurs in the owner alias
    of its image. *)
Definition stub_matches (word : string) (m : EshMachine.t) : bool :=
  match NodeImage.extra (EshMachine._image m) !! "owneralias" with
  | Some (AStr s) => str_contains word s
  | _ => false
  end.

Definition stub_AWSDriver : Driver :=
  {| driver_cls := AWSDriver;
     provider :=
       stub_provider AWSProvider
         (fun _ => Ok (stub_connection (Ok node1) (Ok VNone)));
     identity := {| identity_cls := AWSIdentity; user := alice |};
     _connection := stub_connection (Ok node1) (Ok VNone) |}.

(** ** Further definitions: the rest of the module *)

(** The name and the log file of a deployment step. *)
Definition step_name (d : Deployment) : option string :=
  match d with
  | ScriptDeployment _ n => Some n
  | LoggedScriptDeployment _ n _ => Some n
  | MultiStepDeployment _ => None
  end.

Definition step_logfile (d : Deployment) : option string :=
  match d with
  | LoggedScriptDeployment _ _ f => Some f
  | _ => None
  end.

Definition step_script (d : Deployment) : option string :=
  match d with
  | ScriptDeployment s _ => Some s
  | LoggedScriptDeployment s _ _ => Some s
  | MultiStepDeployment _ => None
  end.

(** Successive calls of [filter_machines] that all omit [black_list], one
    per list of machines, and the world they leave. *)
Definition filter_machines_calls (matches : string -> EshMachine.t -> bool)
    (self : Driver) (calls : list (list EshMachine.t)) (w : World) : World :=
  fold_left
    (fun w machines =>
       snd (AWSDriver_filter_machines matches self machines None w))
    calls w.

(** The OpenStack driver that construction builds over the stub provider. *)
Definition pinned_driver : Driver :=
  {| driver_cls := OSDriver; provider := provider stub_driver;
     identity := os_identity;
     _connection :=
       {| list_nodes := list_nodes (_connection stub_driver);
          list_images := list_images (_connection stub_driver);
          list_sizes := list_sizes (_connection stub_driver);
          list_volumes := list_volumes (_connection stub_driver);
          deploy_node := deploy_node (_connection stub_driver);
          ex_deploy_to_node := ex_deploy_to_node (_connection stub_driver);
          _ex_force_service_region := Some "RegionOne";
          service_region := Some "RegionOne" |} |}.

(** [s.replace(old, new)]: every occurrence of [old] in [s], found from the
    left and not overlapping, becomes [new]. [skip] counts the characters of
    an occurrence that are still to be passed over. *)
Fixpoint replace_from (old new : string) (skip : nat) (s : string) : string :=
  match s with
  | EmptyString =>
      match old, skip with
      | EmptyString, O => new
      | _, _ => EmptyString
      end
  | String c s' =>
      match skip with
      | S k => replace_from old new k s'
      | O =>
          if String.prefix old s
          then new +:+ replace_from old new (String.length old - 1) s'
          else String c (replace_from old new 0 s')
      end
  end.

Definition str_replace (old new s : string) : string :=
  match old with
  | EmptyString =>
      (* between all characters, and at both ends *)
      new +:+ (fix go (s : string) : string :=
                 match s with
                 | EmptyString => EmptyString
                 | String c s' => String c (new +:+ go s')
                 end) s
  | _ => replace_from old new 0 s
  end.

(** [s.name = s.name.replace('/root', '/home/ubuntu')] on a step. *)
Definition rename_step (d : Deployment) : Deployment :=
  match d with
  | ScriptDeployment s n =>
      ScriptDeployment s (str_replace "/root" "/home/ubuntu" n)
  | LoggedScriptDeployment s n f =>
      LoggedScriptDeployment s (str_replace "/root" "/home/ubuntu" n) f
  | MultiStepDeployment l => MultiStepDeployment l
  end.

(** [d.pop(k)] on a dictionary. *)
Definition dict_pop (d : gmap string value) (k : string)
  : Result (value * gmap string value) :=
  match d !! k with
  | Some v => Ok (v, delete k d)
  | None => Raise (KeyError k)
  end.

Section Remaining.

Variable settings : Settings.
Variable str_of_object : value -> string.

(** The primitives of a connection that the methods above do not use,
    looked up by name: each answers from its arguments and from the calls
    the connection has received so far. [create_node] is kept apart because
    its result is a node that the converting driver wraps. *)
Variable primitive :
  Connection -> string -> list value -> gmap string value -> list call ->
  Result value.
Variable create_node :
  Connection -> list value -> gmap string value -> list call -> Result Node.t.

(** [str(args)] and [str(kwargs)] of a tuple and a dictionary of arguments. *)
Variable str_of_args : list value -> string.
Variable str_of_kwargs : gmap string value -> string.

(** [self._connection.name] called with the same arguments. *)
Definition call_primitive (self : Driver) (name : string)
    (args : list value) (kwargs : gmap string value) : M value :=
  invoke name args kwargs (primitive (_connection self) name args kwargs).

(** *** BaseDriver: the optional operations *)

Definition BaseDriver_start_instance (self : Driver) (args : list value)
    (kwargs : gmap string value) : M value :=
  raise NotImplementedError.

Definition BaseDriver_stop_instance (self : Driver) (args : list value)
    (kwargs : gmap string value) : M value :=
  raise NotImplementedError.

Definition BaseDriver_resume_instance (self : Driver) (args : list value)
    (kwargs : gmap string value) : M value :=
  raise NotImplementedError.

Definition BaseDriver_suspend_instance (self : Driver) (args : list value)
    (kwargs : gmap string value) : M value :=
  raise NotImplementedError.

Definition BaseDriver_resize_instance (self : Driver) (args : list value)
    (kwargs : gmap string value) : M value :=
  raise NotImplementedError.

(** *** LibcloudDriver: the remaining pass-throughs *)


Definition LibcloudDriver_create_instance (self : Driver)
    (args : list value) (kwargs : gmap string value) : M Node.t :=
  invoke "create_node" args kwargs
         (create_node (_connection self) args kwargs).

Definition LibcloudDriver_deploy_instance (self : Driver)
    (args : list value) (kwargs : gmap string value) : M Node.t :=
  invoke "deploy_node" args kwargs (deploy_node (_connection self) args kwargs).

Definition LibcloudDriver_reboot_instance (self : Driver)
    (args : list value) (kwargs : gmap string value) : M value :=
  call_primitive self "reboot_node" args kwargs.

Definition LibcloudDriver_destroy_instance (self : Driver)
    (args : list value) (kwargs : gmap string value) : M value :=
  call_primitive self "destroy_node" args kwargs.

Definition LibcloudDriver_create_volume (self : Driver) (args : list value)
    (kwargs : gmap string value) : M value :=
  call_primitive self "create_volume" args kwargs.

Definition LibcloudDriver_destroy_volume (self : Driver) (args : list value)
    (kwargs : gmap string value) : M value :=
  call_primitive self "destroy_volume" args kwargs.

Definition LibcloudDriver_attach_volume (self : Driver) (args : list value)
    (kwargs : gmap string value) : M value :=
  call_primitive self "attach_volume" args kwargs.

Definition LibcloudDriver_detach_volume (self : Driver) (args : list value)
    (kwargs : gmap string value) : M value :=
  call_primitive self "detach_volume" args kwargs.

(** *** EshDriver: writes and the operations it hands to its parents.
    [super(EshDriver, self)] finds a method in [LibcloudDriver] when it has
    one, and in [BaseDriver] otherwise. *)


Definition EshDriver_create_instance (self : Driver) (args : list value)
    (kwargs : gmap string value) : M EshInstance.t :=
  logger DEBUG (LogMsg (str_of_args args)) ;;;
  (logger DEBUG (LogMsg (str_of_kwargs kwargs)) ;;;
  (node <- LibcloudDriver_create_instance self args kwargs ;;
  ret (instanceCls (provider self) node))).

Definition EshDriver_deploy_instance (self : Driver) (args : list value)
    (kwargs : gmap string value) : M EshInstance.t :=
  node <- LibcloudDriver_deploy_instance self args kwargs ;;
  ret (instanceCls (provider self) node).

Definition EshDriver_reboot_instance (self : Driver) (args : list value)
    (kwargs : gmap string value) : M value :=
  LibcloudDriver_reboot_instance self args kwargs.

Definition EshDriver_start_instance (self : Driver) (args : list value)
    (kwargs : gmap string value) : M value :=
  BaseDriver_start_instance self args kwargs.

Definition EshDriver_stop_instance (self : Driver) (args : list value)
    (kwargs : gmap string value) : M value :=
  BaseDriver_stop_instance self args kwargs.

Definition EshDriver_resume_instance (self : Driver) (args : list value)
    (kwargs : gmap string value) : M value :=
  BaseDriver_resume_instance self args kwargs.

Definition EshDriver_suspend_instance (self : Driver) (args : list value)
    (kwargs : gmap string value) : M value :=
  BaseDriver_suspend_instance self args kwargs.

Definition EshDriver_destroy_instance (self : Driver) (args : list value)
    (kwargs : gmap string value) : M value :=
  LibcloudDriver_destroy_instance self args kwargs.

Definition EshDriver_create_volume (self : Driver) (args : list value)
    (kwargs : gmap string value) : M value :=
  LibcloudDriver_create_volume self args kwargs.

Definition EshDriver_destroy_volume (self : Driver) (args : list value)
    (kwargs : gmap string value) : M value :=
  LibcloudDriver_destroy_volume self args kwargs.

Definition EshDriver_attach_volume (self : Driver) (args : list value)
    (kwargs : gmap string value) : M value :=
  LibcloudDriver_attach_volume self args kwargs.

Definition EshDriver_detach_volume (self : Driver) (args : list value)
    (kwargs : gmap string value) : M value :=
  LibcloudDriver_detach_volume self args kwargs.

(** *** OSDriver: the extension primitives *)

Definition OSDriver_destroy_instance (self : Driver) (args : list value)
    (kwargs : gmap string value) : M value :=
  call_primitive self "destroy_node" args kwargs.

Definition OSDriver_start_instance (self : Driver) (args : list value)
    (kwargs : gmap string value) : M value :=
  call_primitive self "ex_start_node" args kwargs.

Definition OSDriver_stop_instance (self : Driver) (args : list value)
    (kwargs : gmap string value) : M value :=
  call_primitive self "ex_stop_node" args kwargs.

Definition OSDriver_suspend_instance (self : Driver) (args : list value)
    (kwargs : gmap string value) : M value :=
  call_primitive self "ex_suspend_node" args kwargs.

Definition OSDriver_resume_instance (self : Driver) (args : list value)
    (kwargs : gmap string value) : M value :=
  call_primitive self "ex_resume_node" args kwargs.

Definition OSDriver_resize_instance (self : Driver) (args : list value)
    (kwargs : gmap string value) : M value :=
  call_primitive self "ex_resize" args kwargs.

Definition OSDriver_reboot_instance (self : Driver) (args : list value)
    (kwargs : gmap string value) : M value :=
  call_primitive self "reboot_node" args kwargs.

Definition OSDriver_confirm_resize_instance (self : Driver)
    (args : list value) (kwargs : gmap string value) : M value :=
  call_primitive self "ex_confirm_resize" args kwargs.

Definition OSDriver_revert_resize_instance (self : Driver)
    (args : list value) (kwargs : gmap string value) : M value :=
  call_primitive self "ex_revert_resize" args kwargs.

Definition OSDriver__add_floating_ip (self : Driver) (instance : value)
    (args : list value) (kwargs : gmap string value) : M value :=
  call_primitive self "_add_floating_ip" (instance :: args) kwargs.


(** *** EucaDriver: what Eucalyptus does not offer *)

Definition EucaDriver_deploy_instance (self : Driver) (args : list value)
    (kwargs : gmap string value) : M value :=
  raise NotImplementedError.

Definition EucaDriver_resume_instance (self : Driver) (args : list value)
    (kwargs : gmap string value) : M value :=
  raise NotImplementedError.

Definition EucaDriver_suspend_instance (self : Driver) (args : list value)
    (kwargs : gmap string value) : M value :=
  raise NotImplementedError.

Definition EucaDriver_start_instance (self : Driver) (args : list value)
    (kwargs : gmap string value) : M value :=
  raise NotImplementedError.

Definition EucaDriver_stop_instance (self : Driver) (args : list value)
    (kwargs : gmap string value) : M value :=
  raise NotImplementedError.

(** *** AWSDriver: volumes *)

Definition AWSDriver_create_volume (self : Driver) (args : list value)
    (kwargs : gmap string value) : M value :=
  let kwargs :=
    if bool_decide (is_Some (kwargs !! "description"))
    then delete "description" kwargs
    else kwargs in
  LibcloudDriver_create_volume self args kwargs.

(** *** AWSDriver: deployment *)

(** The name libcloud gives to the n-th script of a call that is built
    without one: a fresh file name under [/root]. *)
Variable unnamed : nat -> string.

(** [datetime.strptime(value, format)]: a date, or the error of a value
    that does not have the format. *)
Variable datetime : Type.
Variable strptime : atom -> string -> Result datetime.

(** The agent invocation of the AWS driver, after the [%] conversion. *)
Definition aws_atmo_call (username : string) (instance_token : value)
  : string :=
  "sudo " +:+ atmo_init +:+ " --service_type=" +:+ "instance_service_v1"
  +:+ " --service_url=" +:+ INSTANCE_SERVICE_URL settings
  +:+ " --server=" +:+ SERVER_URL settings
  +:+ " --user_id=" +:+ username
  +:+ " --token=" +:+ py_str str_of_object instance_token
  +:+ " &> " +:+ "/var/log/atmo_init_full.err".

(** [for s in scripts: ...]: the name of each step is logged, rewritten,
    and logged again. A step without a name stops the loop. *)
Fixpoint rename_scripts (scripts : list Deployment) : M (list Deployment) :=
  match scripts with
  | [] => ret []
  | s :: scripts' =>
      match step_name s with
      | Some n =>
          logger DEBUG (LogMsg n) ;;;
          (logger DEBUG (LogMsg (str_replace "/root" "/home/ubuntu" n)) ;;;
          (renamed <- rename_scripts scripts' ;;
          ret (rename_step s :: renamed)))
      | None => raise (AttributeError "object has no attribute 'name'")
      end
  end.

Definition AWSDriver_deploy_instance (self : Driver) (args : list value)
    (kwargs : gmap string value) : M EshInstance.t :=
  username <- lift (getattr_username (user (identity self))) ;;
  let script_deps :=
    ScriptDeployment "sudo apt-get install -y emacs vim wget" (unnamed 0) in
  let script_wget :=
    ScriptDeployment
      ("sudo wget -O " +:+ atmo_init +:+ " " +:+ SERVER_URL settings
       +:+ server_atmo_init) (unnamed 1) in
  let script_chmod :=
    ScriptDeployment ("sudo chmod a+x " +:+ atmo_init) (unnamed 2) in
  let instance_token := dict_get_default kwargs "token" (VStr EmptyString) in
  let awesome_atmo_call := aws_atmo_call username instance_token in
  logger DEBUG (LogMsg awesome_atmo_call) ;;;
  (let script_atmo_init := ScriptDeployment awesome_atmo_call (unnamed 3) in
  scripts <- rename_scripts [script_deps; script_wget; script_chmod;
                             script_atmo_init] ;;
  let msd := MultiStepDeployment scripts in
  let kwargs := <["ex_keyname" := VStr "dalloway-key"]> kwargs in
  let kwargs := <["ssh_username" := VStr "ubuntu"]> kwargs in
  let kwargs := <["ssh_key" := VStr private_key]> kwargs in
  let kwargs := <["deploy" := VDeployment msd]> kwargs in
  let kwargs := <["timeout" := VInt 400]> kwargs in
  instance <- EshDriver_deploy_instance self args kwargs ;;
  created <- lift (result_bind
                     (getitem (EshInstance.extra instance) "created")
                     (fun c => strptime c "%Y-%m-%dT%H:%M:%SZ")) ;;
  ret instance).

(** The steps, the keyword arguments and the log records of a call of the
    AWS [deploy_instance] for a user name. *)
Definition aws_steps (username : string) (kwargs : gmap string value)
  : list Deployment :=
  rename_step <$>
    [ScriptDeployment "sudo apt-get install -y emacs vim wget" (unnamed 0);
     ScriptDeployment
       ("sudo wget -O " +:+ atmo_init +:+ " " +:+ SERVER_URL settings
        +:+ server_atmo_init) (unnamed 1);
     ScriptDeployment ("sudo chmod a+x " +:+ atmo_init) (unnamed 2);
     ScriptDeployment
       (aws_atmo_call username
          (dict_get_default kwargs "token" (VStr EmptyString)))
       (unnamed 3)].

Definition aws_kwargs (username : string) (kwargs : gmap string value)
  : gmap string value :=
  <["timeout" := VInt 400]>
    (<["deploy" :=
         VDeployment (MultiStepDeployment (aws_steps username kwargs))]>
       (<["ssh_key" := VStr private_key]>
          (<["ssh_username" := VStr "ubuntu"]>
             (<["ex_keyname" := VStr "dalloway-key"]> kwargs)))).

Definition aws_logs (username : string) (kwargs : gmap string value)
  : list (log_level * log_payload) :=
  (DEBUG, LogMsg (aws_atmo_call username
                    (dict_get_default kwargs "token" (VStr EmptyString))))
  :: flat_map
       (fun n => [(DEBUG, LogMsg (unnamed n));
                  (DEBUG, LogMsg (str_replace "/root" "/home/ubuntu"
                                    (unnamed n)))])
       [0; 1; 2; 3]%nat.

(** *** Drivers from the settings *)

(** [settings.OPENSTACK_ARGS], and the constructors of [rtwo.provider] and
    [rtwo.identity] as [settings_init] calls them: [OSProvider.set_meta()]
    then [OSProvider()], and [OSIdentity(provider, username, password,
    **kwargs)]. *)
Variable OPENSTACK_ARGS : gmap string value.
Variable OSProvider_new : Result Provider.
Variable OSIdentity_new :
  Provider -> value -> value -> gmap string value -> Result Identity.

Definition settings_init_unavailable : string :=
  "Settings init not available for this class:"
  +:+ "Expected settings.OPENSTACK_ARGS with"
  +:+ "username/password/tenant_name fields".

Definition EshDriver_settings_init : Result Driver :=
  Raise (ServiceException "Settings init not available for this class").

(** [OSDriver.settings_init]. The three fields are popped from a deep copy;
    the bare [except] turns whatever goes wrong there into a
    [ServiceException]. The identity is then given the settings themselves,
    not the copy, next to [ex_tenant_name]; a keyword given twice is a
    [TypeError]. *)
Definition OSDriver_settings_init : Result Driver :=
  let os_args := OPENSTACK_ARGS in
  match
    result_bind (dict_pop os_args "username") (fun '(username, os_args) =>
    result_bind (dict_pop os_args "password") (fun '(password, os_args) =>
    result_bind (dict_pop os_args "tenant_name") (fun '(tenant_name, _) =>
    Ok (username, password, tenant_name))))
  with
  | Raise _ => Raise (ServiceException settings_init_unavailable)
  | Ok (username, password, tenant_name) =>
      result_bind OSProvider_new (fun provider =>
      result_bind
        (if bool_decide (is_Some (OPENSTACK_ARGS !! "ex_tenant_name"))
         then Raise (TypeError
                "got multiple values for keyword argument 'ex_tenant_name'")
         else OSIdentity_new provider username password
                (<["ex_tenant_name" := tenant_name]> OPENSTACK_ARGS))
        (fun identity =>
      new_driver settings OSDriver (Some provider) (Some identity)))
  end.

(** *** Method resolution: the method a call on [self] runs, by the class
    of [self] *)

Inductive action := Start | Stop | Suspend | Resume | Resize.

Definition ex_primitive (a : action) : string :=
  match a with
  | Start => "ex_start_node"
  | Stop => "ex_stop_node"
  | Suspend => "ex_suspend_node"
  | Resume => "ex_resume_node"
  | Resize => "ex_resize"
  end.

Definition start_instance (self : Driver) : list value ->
    gmap string value -> M value :=
  match driver_cls self with
  | OSDriver => OSDriver_start_instance self
  | EucaDriver => EucaDriver_start_instance self
  | EshDriver | AWSDriver => EshDriver_start_instance self
  | LibcloudDriver => BaseDriver_start_instance self
  end.

Definition stop_instance (self : Driver) : list value ->
    gmap string value -> M value :=
  match driver_cls self with
  | OSDriver => OSDriver_stop_instance self
  | EucaDriver => EucaDriver_stop_instance self
  | EshDriver | AWSDriver => EshDriver_stop_instance self
  | LibcloudDriver => BaseDriver_stop_instance self
  end.

Definition suspend_instance (self : Driver) : list value ->
    gmap string value -> M value :=
  match driver_cls self with
  | OSDriver => OSDriver_suspend_instance self
  | EucaDriver => EucaDriver_suspend_instance self
  | EshDriver | AWSDriver => EshDriver_suspend_instance self
  | LibcloudDriver => BaseDriver_suspend_instance self
  end.

Definition resume_instance (self : Driver) : list value ->
    gmap string value -> M value :=
  match driver_cls self with
  | OSDriver => OSDriver_resume_instance self
  | EucaDriver => EucaDriver_resume_instance self
  | EshDriver | AWSDriver => EshDriver_resume_instance self
  | LibcloudDriver => BaseDriver_resume_instance self
  end.

Definition resize_instance (self : Driver) : list value ->
    gmap string value -> M value :=
  match driver_cls self with
  | OSDriver => OSDriver_resize_instance self
  | _ => BaseDriver_resize_instance self
  end.

Definition instance_action (a : action) (self : Driver) : list value ->
    gmap string value -> M value :=
  match a with
  | Start => start_instance self
  | Stop => stop_instance self
  | Suspend => suspend_instance self
  | Resume => resume_instance self
  | Resize => resize_instance self
  end.

Definition create_volume (self : Driver) : list value ->
    gmap string value -> M value :=
  match driver_cls self with
  | AWSDriver => AWSDriver_create_volume self
  | LibcloudDriver => LibcloudDriver_create_volume self
  | _ => EshDriver_create_volume self
  end.

(** The operations every driver hands to the connection, and the primitive
    each one ends in. *)
Inductive passed_through :=
| Reboot | Destroy | DestroyVolume | AttachVolume | DetachVolume.

Definition primitive_of (o : passed_through) : string :=
  match o with
  | Reboot => "reboot_node"
  | Destroy => "destroy_node"
  | DestroyVolume => "destroy_volume"
  | AttachVolume => "attach_volume"
  | DetachVolume => "detach_volume"
  end.

Definition reboot_instance (self : Driver) : list value ->
    gmap string value -> M value :=
  match driver_cls self with
  | OSDriver => OSDriver_reboot_instance self
  | LibcloudDriver => LibcloudDriver_reboot_instance self
  | _ => EshDriver_reboot_instance self
  end.

Definition destroy_instance (self : Driver) : list value ->
    gmap string value -> M value :=
  match driver_cls self with
  | OSDriver => OSDriver_destroy_instance self
  | LibcloudDriver => LibcloudDriver_destroy_instance self
  | _ => EshDriver_destroy_instance self
  end.

Definition destroy_volume (self : Driver) : list value ->
    gmap string value -> M value :=
  match driver_cls self with
  | LibcloudDriver => LibcloudDriver_destroy_volume self
  | _ => EshDriver_destroy_volume self
  end.

Definition attach_volume (self : Driver) : list value ->
    gmap string value -> M value :=
  match driver_cls self with
  | LibcloudDriver => LibcloudDriver_attach_volume self
  | _ => EshDriver_attach_volume self
  end.

Definition detach_volume (self : Driver) : list value ->
    gmap string value -> M value :=
  match driver_cls self with
  | LibcloudDriver => LibcloudDriver_detach_volume self
  | _ => EshDriver_detach_volume self
  end.

Definition pass_through (o : passed_through) (self : Driver) : list value ->
    gmap string value -> M value :=
  match o with
  | Reboot => reboot_instance self
  | Destroy => destroy_instance self
  | DestroyVolume => destroy_volume self
  | AttachVolume => attach_volume self
  | DetachVolume => detach_volume self
  end.

End Remaining.

(** Stubs for the remaining primitives and for the library calls. *)
Definition stub_primitive (c : Connection) (name : string)
    (args : list value) (kwargs : gmap string value) (h : list call)
  : Result value :=
  Ok (VBool true).

Definition stub_create_node (c : Connection) (args : list value)
    (kwargs : gmap string value) (h : list call) : Result Node.t :=
  Ok node2.

Definition stub_unnamed (n : nat) : string :=
  "/root/deployment_" +:+ pretty n +:+ ".sh".

(** A stub for [strptime] that accepts any string. *)
Definition stub_strptime (a : atom) (format : string) : Result unit :=
  match a with
  | AStr _ => Ok tt
  | _ => Raise (TypeError "must be string")
  end.

(** A node as EC2 reports it once deployed. *)
Definition ec2_node : Node.t :=
  {| Node.id := "i-7";
     Node.extra := <["created" := AStr "2013-07-01T12:00:00Z"]> ∅ |}.

Definition stub_AWS_deploying (u : User) (outcome : Result Node.t) : Driver :=
  {| driver_cls := AWSDriver;
     provider :=
       stub_provider AWSProvider
         (fun _ => Ok (stub_connection outcome (Ok VNone)));
     identity := {| identity_cls := AWSIdentity; user := u |};
     _connection := stub_connection outcome (Ok VNone) |}.

Definition volume_kwargs : gmap string value :=
  <["description" := VStr "scratch"]> (<["size" := VInt 10]> ∅).
(** ** Properties *)

(** *** Scalars and dictionaries *)

Lemma py_eq_str (a : atom) (s : string) :
  py_eq a (AStr s) = true <-> a = AStr s.
Proof.
  destruct a as [| b | n | t]; simpl.
  - split; discriminate.
  - split; discriminate.
  - split; discriminate.
  - rewrite String.eqb_eq. split; congruence.
Qed.

Lemma py_eq_str_false (a : atom) (s : string) :
  py_eq a (AStr s) = false <-> a <> AStr s.
Proof.
  rewrite <- py_eq_str. destruct (py_eq a (AStr s)); split; congruence.
Qed.

Lemma getitem_Some (d : gmap string atom) (k : string) (a : atom) :
  d !! k = Some a -> getitem d k = Ok a.
Proof. intros H. unfold getitem. now rewrite H. Qed.

(** *** OpenStack: which instances count as active *)

(** C4. For an instance whose [extra] carries a status, a task and a power
    state, [_is_active_instance] returns a boolean, and that boolean is true
    exactly when status is "active" and task is neither "deleting" nor
    "suspending", or status is "build" or "resize" and task is not
    "deleting". Every other combination gives false; in particular status
    "suspended" gives false whatever the task. *)
Theorem is_active_instance_classifies
    (self : Driver) (instance : EshInstance.t) (status task power : atom) :
  EshInstance.extra instance !! "status" = Some status ->
  EshInstance.extra instance !! "task" = Some task ->
  EshInstance.extra instance !! "power" = Some power ->
  exists b : bool,
    _is_active_instance self instance = Ok b
    /\ (b = true <-> active_by_spec status task)
    /\ (~ active_by_spec status task -> b = false)
    /\ (status = AStr "suspended" -> b = false).
Proof.
  intros Hs Ht Hp. unfold _is_active_instance.
  rewrite (getitem_Some _ _ _ Hs), (getitem_Some _ _ _ Ht),
    (getitem_Some _ _ _ Hp). simpl.
  assert (Hiff :
    (if py_eq status (AStr "active")
     then negb (py_eq task (AStr "deleting")
                || (py_eq task (AStr "suspending") || false))
     else (py_eq status (AStr "build") || py_eq status (AStr "resize"))
          && negb (py_eq task (AStr "deleting"))) = true
    <-> active_by_spec status task).
  { unfold active_by_spec.
    destruct (py_eq status (AStr "active")) eqn:Ea.
    - apply py_eq_str in Ea. subst status.
      rewrite negb_true_iff, !orb_false_iff, !py_eq_str_false.
      split.
      + intros (H1 & H2 & _). left. auto.
      + intros [(_ & H1 & H2) | ([H | H] & _)]; try discriminate. auto.
    - apply py_eq_str_false in Ea.
      rewrite andb_true_iff, orb_true_iff, negb_true_iff, !py_eq_str,
        py_eq_str_false.
      split.
      + intros H. right. exact H.
      + intros [(H & _) | H]; [contradiction | exact H]. }
  set (b := if py_eq status (AStr "active")
            then negb (py_eq task (AStr "deleting")
                       || (py_eq task (AStr "suspending") || false))
            else (py_eq status (AStr "build") || py_eq status (AStr "resize"))
                 && negb (py_eq task (AStr "deleting"))) in *.
  exists b. split; [| split; [exact Hiff | split]].
  - unfold b, py_in. simpl.
    destruct (py_eq status (AStr "active")).
    + now destruct (negb _).
    + now destruct (_ && _).
  - intros Hn. destruct b; [| reflexivity].
    exfalso. apply Hn, Hiff. reflexivity.
  - intros ->. reflexivity.
Qed.

Lemma is_active_instance_classifies_witness :
  exists b : bool,
    _is_active_instance stub_driver
      (example_instance (AStr "active") (AStr "running")) = Ok b
    /\ (b = true <-> active_by_spec (AStr "active") (AStr "running"))
    /\ (~ active_by_spec (AStr "active") (AStr "running") -> b = false)
    /\ (AStr "active" = AStr "suspended" -> b = false).
Proof.
  apply (is_active_instance_classifies stub_driver
           (example_instance (AStr "active") (AStr "running"))
           (AStr "active") (AStr "running") (AInt 1)); reflexivity.
Defined.

(** The five cases the specification lists. *)
Example is_active_instance_cases :
  _is_active_instance stub_driver
    (example_instance (AStr "active") (AStr "running")) = Ok true
  /\ _is_active_instance stub_driver
       (example_instance (AStr "active") (AStr "deleting")) = Ok false
  /\ _is_active_instance stub_driver
       (example_instance (AStr "build") (AStr "spawning")) = Ok true
  /\ _is_active_instance stub_driver
       (example_instance (AStr "build") (AStr "deleting")) = Ok false
  /\ _is_active_instance stub_driver
       (example_instance (AStr "suspended") ANone) = Ok false.
Proof. repeat split; reflexivity. Qed.

(** An [extra] without a power state: the unused lookup still raises. *)
Example is_active_instance_needs_power :
  _is_active_instance stub_driver
    {| EshInstance._node := node1; EshInstance.id := "i-1";
       EshInstance.extra :=
         <["status" := AStr "active"]> (<["task" := ANone]> ∅) |}
  = Raise (KeyError "power").
Proof. reflexivity. Qed.

(** *** Reads: pass-through and conversion *)

Lemma map_wrapped_in_order {A B} (cls : A -> B) (l : list A) :
  wrapped_in_order cls (Ok l) (Ok (map cls l)).
Proof.
  simpl. split.
  - apply length_map.
  - induction l as [| a l IH]; intros [| i] x Hx; simpl in *;
      try discriminate.
    + congruence.
    + apply IH. exact Hx.
Qed.

Lemma bind_map_wrapped_in_order {A B} (cls : A -> B) (m : M (list A))
    (w : World) :
  wrapped_in_order cls (fst (m w))
    (fst ((raws <- m ;; ret (map cls raws)) w)).
Proof.
  unfold bind, ret. destruct (m w) as [[l | e] w']; simpl.
  - apply (map_wrapped_in_order cls l).
  - reflexivity.
Qed.

(** C1. Whatever the connection answers, the generic driver's
    [list_instances] and [list_volumes] return exactly the result of the
    connection's [list_nodes] and [list_volumes]; and each of the four reads
    of the converting driver returns that raw result with every element
    wrapped by the provider's class for that kind of object, keeping the
    number of elements and their order. *)
Theorem list_reads_pass_through_and_wrap
    (self : Driver) (args : list value) (kwargs : gmap string value)
    (w : World) :
  let c := _connection self in
  let p := provider self in
  fst (LibcloudDriver_list_instances self args kwargs w)
    = list_nodes c (history w)
  /\ fst (LibcloudDriver_list_volumes self args kwargs w)
       = list_volumes c args kwargs (history w)
  /\ wrapped_in_order (instanceCls p) (list_nodes c (history w))
       (fst (EshDriver_list_instances self args kwargs w))
  /\ wrapped_in_order (machineCls p) (list_images c (history w))
       (fst (EshDriver_list_machines self args kwargs w))
  /\ wrapped_in_order (sizeCls p) (list_sizes c (history w))
       (fst (EshDriver_list_sizes self args kwargs w))
  /\ wrapped_in_order (volumeCls p) (list_volumes c args kwargs (history w))
       (fst (EshDriver_list_volumes self args kwargs w)).
Proof.
  intros c p. repeat split.
  - apply (bind_map_wrapped_in_order (instanceCls p)
             (LibcloudDriver_list_instances self [] ∅) w).
  - apply (bind_map_wrapped_in_order (machineCls p)
             (LibcloudDriver_list_machines self [] ∅) w).
  - apply (bind_map_wrapped_in_order (sizeCls p)
             (LibcloudDriver_list_sizes self [] ∅) w).
  - apply (bind_map_wrapped_in_order (volumeCls p)
             (LibcloudDriver_list_volumes self args kwargs) w).
Qed.

(** On the stub connection: two raw nodes, two instances, same order. *)
Example list_instances_stub :
  fst (LibcloudDriver_list_instances stub_driver [] ∅ world0)
    = Ok [node1; node2]
  /\ fst (EshDriver_list_instances stub_driver [] ∅ world0)
       = Ok [instanceCls (provider stub_driver) node1;
             instanceCls (provider stub_driver) node2].
Proof. split; reflexivity. Qed.

(** *** Construction *)

Lemma LibcloudDriver__init__None (cls : DriverCls) :
  (forall i, LibcloudDriver__init__ cls None i
     = Raise (MissingArgsException
         "LibcloudDriver is Missing Required Identity and/or Provider."))
  /\ (forall p, LibcloudDriver__init__ cls p None
     = Raise (MissingArgsException
         "LibcloudDriver is Missing Required Identity and/or Provider.")).
Proof.
  split.
  - reflexivity.
  - intros [p |]; reflexivity.
Qed.

Lemma EshDriver__init__mismatch (cls : DriverCls) (p : Provider)
    (i : Identity) :
  specialized cls -> mismatched cls p i ->
  EshDriver__init__ cls (Some p) (Some i)
  = match get_driver p i with
    | Ok _ => Raise (ServiceException "Wrong Provider or Identity")
    | Raise e => Raise e
    end.
Proof.
  intros Hs Hm. unfold EshDriver__init__, LibcloudDriver__init__.
  destruct (get_driver p i) as [conn | e]; simpl; [| reflexivity].
  destruct Hs as [-> | [-> | ->]]; simpl;
    unfold mismatched in Hm; simpl in Hm;
    repeat case_bool_decide; simpl; try reflexivity;
    destruct Hm as [Hm | Hm]; congruence.
Qed.

(** C8, as the code has it. For every driver class, construction with
    [None] for the provider or for the identity raises the missing-arguments
    error. For a specialized driver given a provider or an identity that is
    not of its bound class, the connection is opened first: when the
    provider's [get_driver] returns, construction raises the type-mismatch
    error, and when [get_driver] raises, that error is the one raised. In
    all these cases no driver is returned. *)
Theorem construction_errors (settings : Settings) (cls : DriverCls) :
  (forall i, new_driver settings cls None i
     = Raise (MissingArgsException
         "LibcloudDriver is Missing Required Identity and/or Provider."))
  /\ (forall p, new_driver settings cls p None
     = Raise (MissingArgsException
         "LibcloudDriver is Missing Required Identity and/or Provider."))
  /\ (forall p i, specialized cls -> mismatched cls p i ->
        new_driver settings cls (Some p) (Some i)
        = match get_driver p i with
          | Ok _ => Raise (ServiceException "Wrong Provider or Identity")
          | Raise e => Raise e
          end
        /\ forall d, new_driver settings cls (Some p) (Some i) <> Ok d).
Proof.
  destruct (LibcloudDriver__init__None cls) as [Hp Hi].
  assert (Hesh : forall c,
    (forall i, EshDriver__init__ c None i
       = Raise (MissingArgsException
           "LibcloudDriver is Missing Required Identity and/or Provider."))
    /\ (forall p, EshDriver__init__ c p None
       = Raise (MissingArgsException
           "LibcloudDriver is Missing Required Identity and/or Provider."))).
  { intros c. unfold EshDriver__init__.
    destruct (LibcloudDriver__init__None c) as [H1 H2].
    split; intros x; [rewrite H1 | rewrite H2]; reflexivity. }
  split; [| split].
  - intros i. destruct cls; unfold new_driver;
      try apply Hp; try apply Hesh.
    unfold OSDriver__init__. now rewrite (proj1 (Hesh OSDriver)).
  - intros p. destruct cls; unfold new_driver;
      try apply Hi; try apply Hesh.
    unfold OSDriver__init__. now rewrite (proj2 (Hesh OSDriver)).
  - intros p i Hs Hm.
    assert (Heq : new_driver settings cls (Some p) (Some i)
                  = match get_driver p i with
                    | Ok _ =>
                        Raise (ServiceException "Wrong Provider or Identity")
                    | Raise e => Raise e
                    end).
    { pose proof (EshDriver__init__mismatch cls p i Hs Hm) as He.
      destruct Hs as [-> | [-> | ->]]; unfold new_driver; try exact He.
      unfold OSDriver__init__. rewrite He.
      now destruct (get_driver p i). }
    split; [exact Heq |].
    intros d. rewrite Heq. now destruct (get_driver p i).
Qed.

Lemma construction_errors_witness :
  new_driver stub_settings AWSDriver
    (Some (provider stub_driver)) (Some os_identity)
  = Raise (ServiceException "Wrong Provider or Identity").
Proof.
  refine (proj1 (proj2 (proj2 (construction_errors stub_settings AWSDriver))
                  (provider stub_driver) os_identity _ _)).
  - right. left. reflexivity.
  - left. simpl. discriminate.
Defined.

(** The claim as written fails when the mismatched provider cannot open a
    connection: the error of [get_driver] is raised, not the type-mismatch
    error. *)
Lemma construction_mismatch_counterexample :
  specialized OSDriver
  /\ mismatched OSDriver unreachable_provider os_identity
  /\ new_driver stub_settings OSDriver
       (Some unreachable_provider) (Some os_identity)
     = Raise (LibcloudError "connection refused")
  /\ new_driver stub_settings OSDriver
       (Some unreachable_provider) (Some os_identity)
     <> Raise (ServiceException "Wrong Provider or Identity").
Proof.
  split; [left; reflexivity |].
  split; [left; simpl; discriminate |].
  split; [reflexivity | discriminate].
Qed.

(** Matching classes: the driver is built, and the OpenStack driver has the
    region pinned in both places. *)
Example construction_ok :
  exists d, new_driver stub_settings OSDriver
              (Some (provider stub_driver)) (Some os_identity) = Ok d
    /\ _ex_force_service_region (_connection d) = Some "RegionOne"
    /\ service_region (_connection d) = Some "RegionOne".
Proof. eexists. repeat split. Qed.

(** The base converting driver binds no class: the check itself fails. *)
Example construction_EshDriver_base :
  new_driver stub_settings EshDriver
    (Some (provider stub_driver)) (Some os_identity)
  = Raise (TypeError isinstance_arg2).
Proof. reflexivity. Qed.

(** *** OpenStack: the deploy family *)

Lemma deploy_to_no_instance (self : Driver) (kwargs : gmap string value)
    (w : World) :
  OSDriver_deploy_to self [] kwargs w
  = (Raise (MissingArgsException "Missing instance argument."), w).
Proof. reflexivity. Qed.

Lemma deploy_init_to_no_instance (settings : Settings)
    (str_of_object : value -> string) (self : Driver)
    (kwargs : gmap string value) (w : World) :
  OSDriver_deploy_init_to settings str_of_object self [] kwargs w
  = (Raise (MissingArgsException "Missing instance argument."), w).
Proof. reflexivity. Qed.

Lemma deploy_to_no_plan (self : Driver) (a : value) (rest : list value)
    (kwargs : gmap string value) (w : World) :
  truthy (dict_get kwargs "deploy") = false ->
  OSDriver_deploy_to self (a :: rest) kwargs w
  = (Raise (MissingArgsException "Missing deploy argument."), w).
Proof.
  intros H. unfold OSDriver_deploy_to, bind, ret. simpl. now rewrite H.
Qed.

Lemma deploy_instance_no_plan (self : Driver) (args : list value)
    (kwargs : gmap string value) (w : World) :
  truthy (dict_get kwargs "deploy") = false ->
  OSDriver_deploy_instance self args kwargs w
  = (Raise (MissingArgsException "Missing deploy argument."), w).
Proof.
  intros H. unfold OSDriver_deploy_instance. now rewrite H.
Qed.

(** What [deploy_to] does once both arguments are there and line 397 has
    found a [username]: one log record, one call to the connection, and the
    outcome of that call decides the result. *)
Lemma deploy_to_runs (self : Driver) (i : EshInstance.t) (rest : list value)
    (kwargs : gmap string value) (w : World) (u : string) :
  truthy (dict_get kwargs "deploy") = true ->
  user (identity self) = UserObject u ->
  let kw := update_if_not (update_if_not kwargs "ssh_key" (VStr private_key))
                          "timeout" (VInt 120) in
  let args := VNode (EshInstance._node i) :: VInstance i :: rest in
  OSDriver_deploy_to self (VInstance i :: rest) kwargs w
  = (match ex_deploy_to_node (_connection self) args kw (history w) with
     | Ok _ => Ok true
     | Raise e => Raise e
     end,
     mkWorld (history w ++ [Call "ex_deploy_to_node" args kw])
             (logs w ++ [(INFO, LogMsg "Attempting deployment to node")])
             (heap w)).
Proof.
  intros Hd Hu kw args.
  unfold OSDriver_deploy_to, bind, ret, lift, logger, invoke. simpl.
  rewrite Hd, Hu. simpl. fold kw. fold args.
  now destruct (ex_deploy_to_node (_connection self) args kw (history w)).
Qed.

(** With a plain string for the user, line 397 raises before anything is
    logged or sent to the connection. *)
Lemma deploy_to_string_user (self : Driver) (a : value) (rest : list value)
    (kwargs : gmap string value) (w : World) (s : string) :
  truthy (dict_get kwargs "deploy") = true ->
  user (identity self) = UserString s ->
  OSDriver_deploy_to self (a :: rest) kwargs w
  = (Raise (AttributeError "'str' object has no attribute 'username'"), w).
Proof.
  intros Hd Hu.
  unfold OSDriver_deploy_to, bind, ret, lift. simpl.
  rewrite Hd, Hu. reflexivity.
Qed.

(** The delegation of [deploy_init_to]. *)
Lemma deploy_init_to_delegates (settings : Settings)
    (str_of_object : value -> string) (self : Driver) (i : EshInstance.t)
    (rest : list value) (kwargs : gmap string value) (w : World) :
  OSDriver_deploy_init_to settings str_of_object self (VInstance i :: rest)
    kwargs w
  = OSDriver_deploy_to self (VInstance i :: VInstance i :: rest)
      (delegated_kwargs
         (init_plan settings str_of_object
            (user_name (user (identity self))) (init_token kwargs i))
         kwargs) w.
Proof.
  unfold OSDriver_deploy_init_to, init_token.
  unfold bind at 1. unfold ret at 1.
  destruct (user (identity self)) as [s | n]; simpl;
    unfold bind at 1; unfold ret at 1, lift at 1; simpl;
    destruct (truthy (dict_get_default kwargs "token" (VStr EmptyString)));
    reflexivity.
Qed.

Lemma delegated_kwargs_lookup (msd : Deployment)
    (kwargs : gmap string value) :
  delegated_kwargs msd kwargs !! "timeout" = Some (VInt 120)
  /\ delegated_kwargs msd kwargs !! "ssh_key" = Some (VStr private_key)
  /\ delegated_kwargs msd kwargs !! "deploy" = Some (VDeployment msd)
  /\ forall k, k <> "timeout" -> k <> "ssh_key" -> k <> "deploy" ->
       delegated_kwargs msd kwargs !! k = kwargs !! k.
Proof.
  unfold delegated_kwargs. repeat split.
  - apply lookup_insert_eq.
  - rewrite lookup_insert_ne by discriminate. apply lookup_insert_eq.
  - rewrite !lookup_insert_ne by discriminate. apply lookup_insert_eq.
  - intros k H1 H2 H3. now rewrite !lookup_insert_ne by congruence.
Qed.

(** [deploy_to] leaves the delegated keyword arguments as they are: the
    three keys are there and true. *)
Lemma update_if_not_delegated (msd : Deployment)
    (kwargs : gmap string value) :
  truthy (dict_get (delegated_kwargs msd kwargs) "deploy") = true
  /\ update_if_not
       (update_if_not (delegated_kwargs msd kwargs) "ssh_key"
          (VStr private_key)) "timeout" (VInt 120)
     = delegated_kwargs msd kwargs.
Proof.
  destruct (delegated_kwargs_lookup msd kwargs) as (Ht & Hk & Hd & _).
  unfold update_if_not, dict_get.
  rewrite Hd, Hk. simpl. rewrite Ht. simpl. split; reflexivity.
Qed.

Lemma app_singleton_neq {A} (l : list A) (x : A) : l <> (l ++ [x])%list.
Proof.
  intros H. apply (f_equal length) in H. rewrite length_app in H.
  simpl in H. lia.
Qed.

(** What [deploy_instance] does once the plan is there and line 411 has
    found a [username]: line 420 looks [deploy_node] up on the driver, and
    the [AttributeError] of that lookup is not the error the handler is
    for. *)
Lemma deploy_instance_object_user (self : Driver) (args : list value)
    (kwargs : gmap string value) (w : World) (u : string) :
  truthy (dict_get kwargs "deploy") = true ->
  user (identity self) = UserObject u ->
  OSDriver_deploy_instance self args kwargs w
  = (Raise (AttributeError "'OSDriver' object has no attribute 'deploy_node'"),
     w).
Proof.
  intros Hd Hu. unfold OSDriver_deploy_instance. rewrite Hd. simpl.
  unfold bind at 1. unfold lift at 1. rewrite Hu. reflexivity.
Qed.

Lemma deploy_instance_string_user (self : Driver) (args : list value)
    (kwargs : gmap string value) (w : World) (s : string) :
  truthy (dict_get kwargs "deploy") = true ->
  user (identity self) = UserString s ->
  OSDriver_deploy_instance self args kwargs w
  = (Raise (AttributeError "'str' object has no attribute 'username'"), w).
Proof.
  intros Hd Hu. unfold OSDriver_deploy_instance. rewrite Hd. simpl.
  unfold bind at 1. unfold lift at 1. rewrite Hu. reflexivity.
Qed.

(** C2, at the failing input. A call to the OpenStack [deploy_instance]
    with a deployment plan never reaches the create+deploy primitive,
    whatever that primitive would do, raise a [DeploymentError] or return.
    When the identity's user carries a [username], line 420 looks
    [deploy_node] up on the driver, which has no such attribute: the call
    ends in that [AttributeError], which the handler for [DeploymentError]
    does not take. When the user is a plain string, line 411 has already
    raised. In both cases nothing is logged, the connection receives
    nothing, and neither [False] nor [True] is returned. *)
Theorem deploy_instance_never_reaches_primitive (self : Driver)
    (args : list value) (kwargs : gmap string value) (w : World) :
  truthy (dict_get kwargs "deploy") = true ->
  let run := OSDriver_deploy_instance self args kwargs w in
  snd run = w
  /\ (forall u, user (identity self) = UserObject u ->
        fst run
        = Raise (AttributeError
                   "'OSDriver' object has no attribute 'deploy_node'"))
  /\ (forall s, user (identity self) = UserString s ->
        fst run
        = Raise (AttributeError "'str' object has no attribute 'username'"))
  /\ (forall b, fst run <> Ok b).
Proof.
  intros Hd run. unfold run.
  destruct (user (identity self)) as [s | u] eqn:Hu.
  - rewrite (deploy_instance_string_user self args kwargs w s Hd Hu). simpl.
    repeat split; discriminate.
  - rewrite (deploy_instance_object_user self args kwargs w u Hd Hu). simpl.
    repeat split; discriminate.
Qed.

Lemma deploy_instance_never_reaches_primitive_witness :
  deploy_node (_connection failing_driver) []
    (<["timeout" := VInt 120]>
       (<["ssh_key" := VStr private_key]> plan_kwargs)) []
  = Raise (DeploymentError "ssh timeout")
  /\ fst (OSDriver_deploy_instance failing_driver [] plan_kwargs world0)
     = Raise (AttributeError
                "'OSDriver' object has no attribute 'deploy_node'")
  /\ snd (OSDriver_deploy_instance failing_driver [] plan_kwargs world0)
     = world0.
Proof.
  assert (Hd : truthy (dict_get plan_kwargs "deploy") = true)
    by reflexivity.
  pose proof (deploy_instance_never_reaches_primitive failing_driver []
                plan_kwargs world0 Hd) as (Hw & Hu & _).
  split; [reflexivity |]. split; [exact (Hu "alice" eq_refl) | exact Hw].
Defined.

(** The same on a connection whose primitive would have succeeded. *)
Example deploy_instance_on_working_connection :
  deploy_node (_connection stub_driver) [] plan_kwargs [] = Ok node1
  /\ OSDriver_deploy_instance stub_driver [] plan_kwargs world0
     = (Raise (AttributeError
                 "'OSDriver' object has no attribute 'deploy_node'"),
        world0).
Proof. split; reflexivity. Qed.

(** C5, as the code has it. [deploy_to] and [deploy_init_to] called without
    an instance, and [deploy_to] and [deploy_instance] called without a
    deployment plan, raise the missing-argument error and leave the world as
    it was: the connection has received nothing. [deploy_instance] has no
    check for an instance: with a plan it never raises the missing-argument
    error, with or without positional arguments. [deploy_to] with an
    instance and a plan, on a driver whose user carries a [username],
    invokes the node-targeted primitive once; it returns [True] when the
    primitive returns, and an error that the primitive raises is raised to
    the caller. *)
Theorem deploy_missing_arguments (settings : Settings)
    (str_of_object : value -> string) (self : Driver)
    (kwargs : gmap string value) (w : World) :
  OSDriver_deploy_to self [] kwargs w
    = (Raise (MissingArgsException "Missing instance argument."), w)
  /\ OSDriver_deploy_init_to settings str_of_object self [] kwargs w
    = (Raise (MissingArgsException "Missing instance argument."), w)
  /\ (truthy (dict_get kwargs "deploy") = false ->
      forall args,
        (exists msg, OSDriver_deploy_to self args kwargs w
                     = (Raise (MissingArgsException msg), w))
        /\ OSDriver_deploy_instance self args kwargs w
           = (Raise (MissingArgsException "Missing deploy argument."), w))
  /\ (truthy (dict_get kwargs "deploy") = true ->
      forall args msg,
        fst (OSDriver_deploy_instance self args kwargs w)
        <> Raise (MissingArgsException msg))
  /\ (truthy (dict_get kwargs "deploy") = true ->
      forall i rest u,
        user (identity self) = UserObject u ->
        let kw := update_if_not
                    (update_if_not kwargs "ssh_key" (VStr private_key))
                    "timeout" (VInt 120) in
        let args := VNode (EshInstance._node i) :: VInstance i :: rest in
        let run := OSDriver_deploy_to self (VInstance i :: rest) kwargs w in
        received (Call "ex_deploy_to_node" args kw) w (snd run)
        /\ (forall r,
              ex_deploy_to_node (_connection self) args kw (history w)
                = Ok r ->
              fst run = Ok true)
        /\ (forall e,
              ex_deploy_to_node (_connection self) args kw (history w)
                = Raise e ->
              fst run = Raise e)).
Proof.
  split; [reflexivity |]. split; [reflexivity |]. split; [| split].
  - intros Hd args. split.
    + destruct args as [| a rest].
      * eexists. reflexivity.
      * eexists. apply deploy_to_no_plan. exact Hd.
    + apply deploy_instance_no_plan. exact Hd.
  - intros Hd args msg.
    destruct (user (identity self)) as [s | u] eqn:Hu.
    + rewrite (deploy_instance_string_user self args kwargs w s Hd Hu).
      discriminate.
    + rewrite (deploy_instance_object_user self args kwargs w u Hd Hu).
      discriminate.
  - intros Hd i rest u Hu kw args run. unfold run.
    rewrite (deploy_to_runs self i rest kwargs w u Hd Hu). simpl.
    fold kw. fold args.
    split; [reflexivity |]. split.
    + intros r Hr. now rewrite Hr.
    + intros e He. now rewrite He.
Qed.

Lemma deploy_missing_arguments_witness :
  OSDriver_deploy_instance stub_driver [] ∅ world0
    = (Raise (MissingArgsException "Missing deploy argument."), world0)
  /\ fst (OSDriver_deploy_to stub_driver [VInstance instance1] plan_kwargs
            world0) = Ok true
  /\ fst (OSDriver_deploy_to failing_driver [VInstance instance1]
            plan_kwargs world0)
     = Raise (DeploymentError "ssh timeout").
Proof.
  assert (Hd : truthy (dict_get plan_kwargs "deploy") = true)
    by reflexivity.
  split; [| split].
  - refine (proj2 (proj1 (proj2 (proj2 (deploy_missing_arguments
              stub_settings stub_str_of_object stub_driver ∅ world0)))
              _ [])).
    reflexivity.
  - refine (proj1 (proj2 (proj2 (proj2 (proj2 (proj2
              (deploy_missing_arguments stub_settings stub_str_of_object
                 stub_driver plan_kwargs world0)))) Hd instance1 []
              "alice" eq_refl)) (VNode node1) _).
    reflexivity.
  - refine (proj2 (proj2 (proj2 (proj2 (proj2 (proj2
              (deploy_missing_arguments stub_settings stub_str_of_object
                 failing_driver plan_kwargs world0)))) Hd instance1 []
              "alice" eq_refl)) (DeploymentError "ssh timeout") _).
    reflexivity.
Defined.

(** The claim as written fails twice. [deploy_instance] called without an
    instance, but with a plan, does not raise the missing-argument error: it
    has no check for an instance and goes on to line 420, where it ends in
    an [AttributeError]. And [deploy_to] with both arguments does not return
    [True] when the primitive raises: the error is raised to the caller. *)
Lemma deploy_missing_arguments_counterexample :
  OSDriver_deploy_instance stub_driver [] plan_kwargs world0
    = (Raise (AttributeError
                "'OSDriver' object has no attribute 'deploy_node'"),
       world0)
  /\ fst (OSDriver_deploy_to failing_driver [VInstance instance1] plan_kwargs
            world0)
     = Raise (DeploymentError "ssh timeout").
Proof. split; reflexivity. Qed.

(** [deploy_init_to] on a driver whose user carries a [username]. *)
Lemma deploy_init_to_object_user (settings : Settings)
    (str_of_object : value -> string) (self : Driver) (i : EshInstance.t)
    (rest : list value) (kwargs : gmap string value) (w : World)
    (u : string) :
  user (identity self) = UserObject u ->
  let kw := delegated_kwargs
              (init_plan settings str_of_object u (init_token kwargs i))
              kwargs in
  let args := VNode (EshInstance._node i) :: VInstance i :: VInstance i
              :: rest in
  OSDriver_deploy_init_to settings str_of_object self (VInstance i :: rest)
    kwargs w
  = (match ex_deploy_to_node (_connection self) args kw (history w) with
     | Ok _ => Ok true
     | Raise e => Raise e
     end,
     mkWorld (history w ++ [Call "ex_deploy_to_node" args kw])
             (logs w ++ [(INFO, LogMsg "Attempting deployment to node")])
             (heap w)).
Proof.
  intros Hu kw args.
  rewrite deploy_init_to_delegates. rewrite Hu. simpl user_name. fold kw.
  destruct (update_if_not_delegated
              (init_plan settings str_of_object u (init_token kwargs i))
              kwargs) as [Hd Hk].
  fold kw in Hd, Hk.
  rewrite (deploy_to_runs self i (VInstance i :: rest) kw w u Hd Hu).
  simpl. rewrite Hk. reflexivity.
Qed.

(** [deploy_init_to] on a driver whose user is a plain string: the name is
    resolved, and the delegated [deploy_to] raises at line 397. *)
Lemma deploy_init_to_string_user (settings : Settings)
    (str_of_object : value -> string) (self : Driver) (i : EshInstance.t)
    (rest : list value) (kwargs : gmap string value) (w : World)
    (s : string) :
  user (identity self) = UserString s ->
  OSDriver_deploy_init_to settings str_of_object self (VInstance i :: rest)
    kwargs w
  = (Raise (AttributeError "'str' object has no attribute 'username'"), w).
Proof.
  intros Hu. rewrite deploy_init_to_delegates.
  apply deploy_to_string_user with (s := s); [| exact Hu].
  apply update_if_not_delegated.
Qed.




(** Called directly, [deploy_to] keeps the caller's key and timeout. *)
Example deploy_to_keeps_override :
  history (snd (OSDriver_deploy_to stub_driver [VInstance instance1]
                  (<["deploy" := VDeployment script_init]> override_kwargs)
                  world0))
  = [Call "ex_deploy_to_node" [VNode node1; VInstance instance1]
       (<["deploy" := VDeployment script_init]> override_kwargs)].
Proof. reflexivity. Qed.

(** The agent invocation carries the resolved name after [--user_id=]. *)
Example awesome_atmo_call_stub :
  awesome_atmo_call stub_settings stub_str_of_object "alice" (VStr "i-1")
  = "/usr/sbin/atmo_init_full.py --service_type=instance_service_v1"
    +:+ " --service_url=https://atmo.example.org/api/v1/instancequery/"
    +:+ " --server=https://atmo.example.org"
    +:+ " --user_id=alice --token=i-1 --vnc_license=LICENSE".
Proof. reflexivity. Qed.

(** With a user object the deployment goes through. *)
Example deploy_init_to_object_user_stub :
  fst (OSDriver_deploy_init_to stub_settings stub_str_of_object stub_driver
         [VInstance instance1] ∅ world0) = Ok true.
Proof. reflexivity. Qed.

(** C7, at the failing input. When the identity's user is a plain string,
    [deploy_init_to] resolves that string into the agent invocation step of
    the plan it hands to [deploy_to], exactly as it would the [username] of
    a user object; but the delegated [deploy_to] then reads
    [self.identity.user.username], which a string does not have, and the
    call ends in an [AttributeError] with nothing logged and nothing sent to
    the connection. *)
Theorem deploy_init_to_string_user_raises (settings : Settings)
    (str_of_object : value -> string) (self : Driver) (i : EshInstance.t)
    (rest : list value) (kwargs : gmap string value) (w : World)
    (s : string) :
  user (identity self) = UserString s ->
  let plan := init_plan settings str_of_object s (init_token kwargs i) in
  let run := OSDriver_deploy_init_to settings str_of_object self
               (VInstance i :: rest) kwargs w in
  run = OSDriver_deploy_to self (VInstance i :: VInstance i :: rest)
          (delegated_kwargs plan kwargs) w
  /\ (exists steps,
        plan = MultiStepDeployment
                 (steps ++ [script_atmo_init settings str_of_object s
                              (init_token kwargs i)]))
  /\ run = (Raise (AttributeError "'str' object has no attribute 'username'"),
            w).
Proof.
  intros Hu plan run. split; [| split].
  - unfold run, plan. rewrite deploy_init_to_delegates, Hu. reflexivity.
  - exists [script_init; script_deps; script_wget settings; script_chmod].
    reflexivity.
  - apply deploy_init_to_string_user with (s := s). exact Hu.
Qed.

Lemma deploy_init_to_string_user_raises_witness :
  OSDriver_deploy_init_to stub_settings stub_str_of_object string_user_driver
    [VInstance instance1] ∅ world0
  = (Raise (AttributeError "'str' object has no attribute 'username'"),
     world0).
Proof.
  refine (proj2 (proj2 (deploy_init_to_string_user_raises stub_settings
            stub_str_of_object string_user_driver instance1 [] ∅ world0
            "alice" _))).
  reflexivity.
Defined.

(** C10. [deploy_init_to] called with an instance first delegates with the
    instance put in front of positional arguments that still begin with it:
    [deploy_to] is handed the instance as its first and as its second
    positional argument. Whatever the connection receives during the call
    is the node-targeted primitive invoked with [instance._node] followed by
    both occurrences of the instance, and it does receive that call when the
    identity's user carries a [username]. *)
Theorem deploy_init_to_passes_instance_twice (settings : Settings)
    (str_of_object : value -> string) (self : Driver) (i : EshInstance.t)
    (rest : list value) (kwargs : gmap string value) (w : World) :
  let kw := delegated_kwargs
              (init_plan settings str_of_object
                 (user_name (user (identity self))) (init_token kwargs i))
              kwargs in
  let run := OSDriver_deploy_init_to settings str_of_object self
               (VInstance i :: rest) kwargs w in
  let c := Call "ex_deploy_to_node"
             (VNode (EshInstance._node i) :: VInstance i :: VInstance i
              :: rest) kw in
  run = OSDriver_deploy_to self (VInstance i :: VInstance i :: rest) kw w
  /\ (forall c', received c' w (snd run) -> c' = c)
  /\ (forall u, user (identity self) = UserObject u ->
        received c w (snd run)).
Proof.
  intros kw run c. split; [apply deploy_init_to_delegates |].
  unfold received, run, c, kw.
  destruct (user (identity self)) as [s | u] eqn:Hu.
  - rewrite (deploy_init_to_string_user settings str_of_object self i rest
               kwargs w s Hu). simpl.
    split; [| discriminate].
    intros c' Hc. exfalso. exact (app_singleton_neq _ _ Hc).
  - rewrite (deploy_init_to_object_user settings str_of_object self i rest
               kwargs w u Hu). simpl.
    split.
    + intros c' Hc. apply app_inv_head in Hc. now injection Hc as <-.
    + intros _ _. reflexivity.
Qed.

Lemma deploy_init_to_passes_instance_twice_witness :
  history (snd (OSDriver_deploy_init_to stub_settings stub_str_of_object
                  stub_driver [VInstance instance1] ∅ world0))
  = [Call "ex_deploy_to_node"
       [VNode node1; VInstance instance1; VInstance instance1]
       (delegated_kwargs
          (init_plan stub_settings stub_str_of_object "alice" (VStr "i-1"))
          ∅)].
Proof.
  refine (proj2 (proj2 (deploy_init_to_passes_instance_twice stub_settings
            stub_str_of_object stub_driver instance1 [] ∅ world0))
            "alice" _).
  reflexivity.
Defined.

(** *** AWS: filtering machines *)

Lemma _filter_machines_total {A} (cond : A -> Result bool) (p : A -> bool)
    (ms : list A) :
  (forall m, In m ms -> cond m = Ok (p m)) ->
  _filter_machines ms cond = Ok (List.filter p ms).
Proof.
  induction ms as [| m ms IH]; intros H; simpl; [reflexivity |].
  rewrite (H m (or_introl eq_refl)).
  rewrite IH by (intros x Hx; apply H; right; exact Hx).
  reflexivity.
Qed.

Lemma _filter_machines_Ok {A} (cond : A -> Result bool) (ms r : list A) :
  _filter_machines ms cond = Ok r ->
  forall m, In m ms -> exists b, cond m = Ok b.
Proof.
  revert r. induction ms as [| m ms IH]; intros r H x Hx; simpl in *.
  - contradiction.
  - destruct (cond m) as [b | e] eqn:Hc; [| discriminate].
    destruct (_filter_machines ms cond) as [r' | e] eqn:Hr; [| discriminate].
    destruct Hx as [<- | Hx]; [eauto | eapply IH; eauto].
Qed.

Lemma alias_cond_Ok (m : EshMachine.t) :
  alias_cond m = Ok (has_kernel_alias m).
Proof.
  unfold alias_cond, has_kernel_alias. simpl.
  destruct (str_contains "aki-" (EshMachine.alias m)); [reflexivity |].
  now destruct (str_contains "ari-" (EshMachine.alias m)).
Qed.

Lemma ownerid_cond_Ok (m : EshMachine.t) (b : bool) :
  ownerid_cond m = Ok b -> b = owner_id_match m.
Proof.
  unfold ownerid_cond, owner_id_match, getitem. cbn [any_].
  destruct (NodeImage.extra (EshMachine._image m) !! "ownerid") as [v |];
    cbn [result_bind]; [| discriminate].
  destruct (py_eq (AStr "099720109477") v); congruence.
Qed.

Lemma owneralias_cond_Ok (m : EshMachine.t) (b : bool) :
  owneralias_cond m = Ok b -> b = owner_alias_match m.
Proof.
  unfold owneralias_cond, owner_alias_match, getitem. cbn [any_].
  destruct (NodeImage.extra (EshMachine._image m) !! "owneralias") as [v |];
    cbn [result_bind]; [| discriminate].
  destruct (py_eq (AStr "amazon") v); cbn [orb]; [congruence |].
  destruct (py_eq (AStr "aws-marketplace") v); congruence.
Qed.

Lemma owner_conds_total (m : EshMachine.t) :
  has_owner m ->
  ownerid_cond m = Ok (owner_id_match m)
  /\ owneralias_cond m = Ok (owner_alias_match m).
Proof.
  intros [[v Hv] [a Ha]].
  unfold ownerid_cond, owneralias_cond, owner_id_match, owner_alias_match,
    getitem. cbn [any_]. rewrite Hv, Ha. cbn [result_bind]. split.
  - now destruct (py_eq (AStr "099720109477") v).
  - destruct (py_eq (AStr "amazon") a); cbn [orb]; [reflexivity |].
    now destruct (py_eq (AStr "aws-marketplace") a).
Qed.

Lemma _filter_machines_partial {A} (cond : A -> Result bool) (p : A -> bool)
    (ms r : list A) :
  (forall m b, cond m = Ok b -> b = p m) ->
  _filter_machines ms cond = Ok r -> r = List.filter p ms.
Proof.
  intros Hp H.
  rewrite (_filter_machines_total cond p ms) in H; [congruence |].
  intros m Hm. destruct (_filter_machines_Ok cond ms r H m Hm) as [b Hb].
  rewrite Hb. f_equal. now apply Hp.
Qed.

(** The whole of [filter_machines], stage by stage: the block-list is
    extended in place, then read by the inherited filter. *)
Lemma filter_machines_unfold (matches : string -> EshMachine.t -> bool)
    (self : Driver) (machines : list EshMachine.t) (black_list : option loc)
    (w : World) :
  let l := default filter_machines__defaults__ black_list in
  let words := (heap_list w l ++ fixed_terms)%list in
  let kept := survivors matches words machines in
  AWSDriver_filter_machines matches self machines black_list w
  = (result_bind (_filter_machines kept ownerid_cond) (fun ubuntu =>
     result_bind (_filter_machines kept owneralias_cond) (fun amazon =>
     Ok (ubuntu ++ amazon)%list)),
     extended w l fixed_terms).
Proof.
  intros l words kept.
  unfold AWSDriver_filter_machines, APIFilterMixin_filter_machines.
  fold l. unfold bind, list_extend, list_read, ret, lift. cbn beta iota.
  change ["bitnami"; "kernel"; "microsoft"; "Windows"] with fixed_terms.
  change (mkWorld (history w) (logs w)
            (<[l := (heap_list w l ++ fixed_terms)%list]> (heap w)))
    with (extended w l fixed_terms).
  assert (Hw : heap_list (extended w l fixed_terms) l = words).
  { unfold heap_list at 1, extended. simpl. now rewrite lookup_insert_eq. }
  rewrite Hw.
  rewrite (_filter_machines_total alias_cond has_kernel_alias)
    by (intros; apply alias_cond_Ok).
  change (List.filter has_kernel_alias
            (List.filter
               (fun m => negb (existsb (fun word => matches word m) words))
               machines))
    with kept.
  unfold result_bind.
  destruct (_filter_machines kept ownerid_cond) as [ubuntu | e];
    [| reflexivity].
  now destruct (_filter_machines kept owneralias_cond).
Qed.

Lemma blocked_false (matches : string -> EshMachine.t -> bool)
    (words : list string) (m : EshMachine.t) :
  (forall word, In word words -> matches word m = false) ->
  blocked matches words m = false.
Proof.
  intros H. unfold blocked.
  induction words as [| x xs IH]; simpl; [reflexivity |].
  rewrite (H x (or_introl eq_refl)). simpl.
  apply IH. intros word Hw. apply H. right. exact Hw.
Qed.

Lemma blocked_true (matches : string -> EshMachine.t -> bool)
    (words : list string) (m : EshMachine.t) (word : string) :
  In word words -> matches word m = true ->
  blocked matches words m = true.
Proof.
  intros Hin Hm. unfold blocked. apply existsb_exists. eauto.
Qed.

Lemma filter_machines_total (matches : string -> EshMachine.t -> bool)
    (self : Driver) (machines : list EshMachine.t) (black_list : option loc)
    (w : World) :
  let l := default filter_machines__defaults__ black_list in
  let kept := survivors matches (heap_list w l ++ fixed_terms) machines in
  (forall m, In m kept -> has_owner m) ->
  fst (AWSDriver_filter_machines matches self machines black_list w)
  = Ok (List.filter owner_id_match kept
        ++ List.filter owner_alias_match kept)%list.
Proof.
  intros l kept H. rewrite filter_machines_unfold. simpl.
  fold l. fold kept.
  rewrite (_filter_machines_total ownerid_cond owner_id_match)
    by (intros m Hm; apply owner_conds_total, H, Hm).
  simpl.
  rewrite (_filter_machines_total owneralias_cond owner_alias_match)
    by (intros m Hm; apply owner_conds_total, H, Hm).
  reflexivity.
Qed.

Lemma filter_machines_partial (matches : string -> EshMachine.t -> bool)
    (self : Driver) (machines r : list EshMachine.t)
    (black_list : option loc) (w : World) :
  let l := default filter_machines__defaults__ black_list in
  let kept := survivors matches (heap_list w l ++ fixed_terms) machines in
  fst (AWSDriver_filter_machines matches self machines black_list w) = Ok r ->
  r = (List.filter owner_id_match kept
       ++ List.filter owner_alias_match kept)%list.
Proof.
  intros l kept. rewrite filter_machines_unfold. simpl. fold l. fold kept.
  destruct (_filter_machines kept ownerid_cond) as [ubuntu | e] eqn:Hu;
    simpl; [| discriminate].
  destruct (_filter_machines kept owneralias_cond) as [amazon | e] eqn:Ha;
    simpl; [| discriminate].
  intros [= <-].
  rewrite (_filter_machines_partial ownerid_cond owner_id_match kept ubuntu
             ownerid_cond_Ok Hu).
  rewrite (_filter_machines_partial owneralias_cond owner_alias_match kept
             amazon owneralias_cond_Ok Ha).
  reflexivity.
Qed.

(** C3. On the list of machines A (alias "aki-1", owner id 099720109477),
    B (alias "ari-2", owner alias "amazon"), C (alias "m1", owner 999) and
    D (alias "aki-x", matched by the block-list term "bitnami"), with no
    block-list word matching A or B, [filter_machines] returns [A; B]. In
    general, on machines whose images report their owner, the result is the
    owner-id matches (099720109477) among the machines that passed the
    block-list and the alias stage, in their order, followed by the
    owner-alias matches ("amazon" or "aws-marketplace") among them, in their
    order; and any list the call returns has that shape. *)
Theorem filter_machines_owner_id_then_alias
    (matches : string -> EshMachine.t -> bool) (self : Driver)
    (black_list : option loc) (w : World) :
  let l := default filter_machines__defaults__ black_list in
  let words := (heap_list w l ++ fixed_terms)%list in
  ((forall word, In word words ->
      matches word machine_A = false /\ matches word machine_B = false) ->
   matches "bitnami" machine_D = true ->
   fst (AWSDriver_filter_machines matches self
          [machine_A; machine_B; machine_C; machine_D] black_list w)
   = Ok [machine_A; machine_B])
  /\ (forall machines,
        (forall m, In m (survivors matches words machines) -> has_owner m) ->
        fst (AWSDriver_filter_machines matches self machines black_list w)
        = Ok (List.filter owner_id_match (survivors matches words machines)
              ++ List.filter owner_alias_match
                   (survivors matches words machines))%list)
  /\ (forall machines r,
        fst (AWSDriver_filter_machines matches self machines black_list w)
          = Ok r ->
        r = (List.filter owner_id_match (survivors matches words machines)
             ++ List.filter owner_alias_match
                  (survivors matches words machines))%list).
Proof.
  intros l words. split; [| split].
  - intros Hab Hd.
    assert (Hkept : survivors matches words
                      [machine_A; machine_B; machine_C; machine_D]
                    = [machine_A; machine_B]).
    { unfold survivors. simpl.
      rewrite (blocked_false matches words machine_A)
        by (intros x Hx; apply (Hab x Hx)).
      rewrite (blocked_false matches words machine_B)
        by (intros x Hx; apply (Hab x Hx)).
      rewrite (blocked_true matches words machine_D "bitnami")
        by (try exact Hd; unfold words, fixed_terms; apply in_or_app;
            right; left; reflexivity).
      simpl. now destruct (blocked matches words machine_C). }
    rewrite filter_machines_total; fold l; fold words; rewrite Hkept.
    + reflexivity.
    + intros m [<- | [<- | []]]; split; eexists; reflexivity.
  - intros machines H. now apply filter_machines_total.
  - intros machines r H. now apply filter_machines_partial in H.
Qed.

Lemma filter_machines_owner_id_then_alias_witness :
  fst (AWSDriver_filter_machines stub_matches stub_AWSDriver
         [machine_A; machine_B; machine_C; machine_D] None world0)
  = Ok [machine_A; machine_B].
Proof.
  refine (proj1 (filter_machines_owner_id_then_alias stub_matches
                   stub_AWSDriver None world0) _ _).
  - intros word [<- | [<- | [<- | [<- | []]]]]; split; reflexivity.
  - reflexivity.
Defined.

(** A machine that matches on both counts is returned twice. *)
Example filter_machines_both_owners :
  fst (AWSDriver_filter_machines stub_matches stub_AWSDriver
         [ec2_machine "aki-2" "099720109477" (AStr "amazon"); machine_A]
         None world0)
  = Ok [ec2_machine "aki-2" "099720109477" (AStr "amazon"); machine_A;
        ec2_machine "aki-2" "099720109477" (AStr "amazon")].
Proof. reflexivity. Qed.

(** C9. [filter_machines] appends the four fixed terms to the block-list
    object it is given, in place: after the call the caller's list, or the
    shared default when the argument is omitted, holds its former words
    followed by "bitnami", "kernel", "microsoft", "Windows", and nothing else
    in the world has changed. From a fresh import, two successive calls that
    omit the argument work on the same list: after the first it holds the
    fixed terms once, the second call filters with a block-list that holds
    them twice, and leaves them there. *)
Theorem filter_machines_extends_black_list
    (matches : string -> EshMachine.t -> bool) (self : Driver)
    (machines machines' : list EshMachine.t) (black_list : option loc)
    (w : World) :
  let l := default filter_machines__defaults__ black_list in
  let w1 := snd (AWSDriver_filter_machines matches self machines black_list
                   w) in
  let v1 := snd (AWSDriver_filter_machines matches self machines None
                   world0) in
  let second := AWSDriver_filter_machines matches self machines' None v1 in
  heap_list w1 l = (heap_list w l ++ fixed_terms)%list
  /\ (forall l', l' <> l -> heap_list w1 l' = heap_list w l')
  /\ history w1 = history w /\ logs w1 = logs w
  /\ heap_list v1 filter_machines__defaults__ = fixed_terms
  /\ fst second
     = fst (AWSDriver_filter_machines matches self machines'
              (Some filter_machines__defaults__)
              (mkWorld [] [] {[ filter_machines__defaults__ := fixed_terms ]}))
  /\ (forall r, fst second = Ok r ->
        r = (List.filter owner_id_match
               (survivors matches (fixed_terms ++ fixed_terms) machines')
             ++ List.filter owner_alias_match
                  (survivors matches (fixed_terms ++ fixed_terms)
                     machines'))%list)
  /\ heap_list (snd second) filter_machines__defaults__
     = (fixed_terms ++ fixed_terms)%list.
Proof.
  intros l w1 v1 second.
  assert (Hext : forall v k, heap_list (extended v k fixed_terms) k
                             = (heap_list v k ++ fixed_terms)%list).
  { intros v k. unfold heap_list at 1, extended. simpl.
    now rewrite lookup_insert_eq. }
  assert (Hv1 : heap_list v1 filter_machines__defaults__ = fixed_terms).
  { unfold v1. rewrite filter_machines_unfold. simpl. now rewrite Hext. }
  assert (Hsecond : second
    = (result_bind
         (_filter_machines
            (survivors matches (fixed_terms ++ fixed_terms) machines')
            ownerid_cond)
         (fun ubuntu =>
          result_bind
            (_filter_machines
               (survivors matches (fixed_terms ++ fixed_terms) machines')
               owneralias_cond)
            (fun amazon => Ok (ubuntu ++ amazon)%list)),
       extended v1 filter_machines__defaults__ fixed_terms)).
  { unfold second. rewrite filter_machines_unfold. simpl. now rewrite Hv1. }
  split; [| split; [| split; [| split; [| split; [| split; [| split]]]]]].
  - unfold w1. rewrite filter_machines_unfold. simpl. fold l. apply Hext.
  - intros l' Hl. unfold w1. rewrite filter_machines_unfold. simpl. fold l.
    unfold heap_list at 1, extended. simpl.
    now rewrite lookup_insert_ne by congruence.
  - unfold w1. now rewrite filter_machines_unfold.
  - unfold w1. now rewrite filter_machines_unfold.
  - exact Hv1.
  - rewrite Hsecond, filter_machines_unfold. reflexivity.
  - intros r Hr. unfold second in Hr.
    apply filter_machines_partial in Hr. simpl in Hr.
    rewrite Hv1 in Hr. exact Hr.
  - rewrite Hsecond. simpl. now rewrite Hext, Hv1.
Qed.

Lemma filter_machines_extends_black_list_witness :
  heap_list
    (snd (AWSDriver_filter_machines stub_matches stub_AWSDriver [machine_A]
            (Some 7%positive)
            (mkWorld [] [] {[ 7%positive := ["centos"] ]})))
    filter_machines__defaults__
  = [].
Proof.
  refine (proj1 (proj2 (filter_machines_extends_black_list stub_matches
            stub_AWSDriver [machine_A] [] (Some 7%positive)
            (mkWorld [] [] {[ 7%positive := ["centos"] ]})))
            filter_machines__defaults__ _).
  discriminate.
Defined.

(** A caller's list is changed under the caller's hands. *)
Example filter_machines_caller_list :
  heap_list
    (snd (AWSDriver_filter_machines stub_matches stub_AWSDriver [machine_A]
            (Some 7%positive)
            (mkWorld [] [] {[ 7%positive := ["centos"] ]})))
    7%positive
  = ["centos"; "bitnami"; "kernel"; "microsoft"; "Windows"].
Proof. reflexivity. Qed.

(** Two calls without the argument, from a fresh import. *)
Example filter_machines_default_twice :
  let w1 := snd (AWSDriver_filter_machines stub_matches stub_AWSDriver
                   [machine_A] None world0) in
  let w2 := snd (AWSDriver_filter_machines stub_matches stub_AWSDriver
                   [machine_B] None w1) in
  heap_list w1 filter_machines__defaults__
    = ["bitnami"; "kernel"; "microsoft"; "Windows"]
  /\ heap_list w2 filter_machines__defaults__
    = ["bitnami"; "kernel"; "microsoft"; "Windows";
       "bitnami"; "kernel"; "microsoft"; "Windows"].
Proof. split; reflexivity. Qed.

(** ** Further properties *)

(** *** Construction that succeeds *)

Lemma EshDriver__init__match (cls : DriverCls) (p : Provider) (i : Identity) :
  providerCls cls = Some (provider_cls p) ->
  identityCls cls = Some (identity_cls i) ->
  EshDriver__init__ cls (Some p) (Some i)
  = match get_driver p i with
    | Ok c => Ok {| driver_cls := cls; provider := p; identity := i;
                    _connection := c |}
    | Raise e => Raise e
    end.
Proof.
  intros Hp Hi. unfold EshDriver__init__, LibcloudDriver__init__.
  destruct (get_driver p i) as [c | e]; simpl; [| reflexivity].
  rewrite Hp, Hi. simpl. rewrite !bool_decide_eq_true_2 by reflexivity.
  reflexivity.
Qed.

(** A specialized driver is built exactly when the provider and the
    identity are of the classes it binds and the provider opens the
    connection. *)
Theorem new_driver_succeeds_iff (settings : Settings) (cls : DriverCls)
    (p : Provider) (i : Identity) :
  specialized cls ->
  (exists d, new_driver settings cls (Some p) (Some i) = Ok d)
  <-> (providerCls cls = Some (provider_cls p)
       /\ identityCls cls = Some (identity_cls i)
       /\ exists c, get_driver p i = Ok c).
Proof.
  intros Hs. split.
  - intros [d Hd].
    destruct (decide (providerCls cls = Some (provider_cls p))) as [Hp | Hp];
      [destruct (decide (identityCls cls = Some (identity_cls i)))
         as [Hi | Hi] |].
    + split; [exact Hp |]. split; [exact Hi |].
      destruct (get_driver p i) as [c | e] eqn:Hg; [eauto |].
      exfalso.
      pose proof (EshDriver__init__match cls p i Hp Hi) as He.
      rewrite Hg in He.
      destruct Hs as [-> | [-> | ->]]; unfold new_driver in Hd;
        try (rewrite He in Hd; discriminate).
      unfold OSDriver__init__ in Hd. rewrite He in Hd. discriminate.
    + exfalso.
      pose proof (EshDriver__init__mismatch cls p i Hs (or_intror Hi)) as He.
      destruct Hs as [-> | [-> | ->]]; unfold new_driver in Hd;
        try (rewrite He in Hd; destruct (get_driver p i); discriminate).
      unfold OSDriver__init__ in Hd. rewrite He in Hd.
      destruct (get_driver p i); discriminate.
    + exfalso.
      pose proof (EshDriver__init__mismatch cls p i Hs (or_introl Hp)) as He.
      destruct Hs as [-> | [-> | ->]]; unfold new_driver in Hd;
        try (rewrite He in Hd; destruct (get_driver p i); discriminate).
      unfold OSDriver__init__ in Hd. rewrite He in Hd.
      destruct (get_driver p i); discriminate.
  - intros (Hp & Hi & c & Hc).
    pose proof (EshDriver__init__match cls p i Hp Hi) as He.
    rewrite Hc in He.
    destruct Hs as [-> | [-> | ->]]; unfold new_driver;
      try (rewrite He; eauto).
    unfold OSDriver__init__. rewrite He. simpl. eauto.
Qed.

Lemma new_driver_succeeds_iff_witness :
  exists d, new_driver stub_settings AWSDriver
              (Some (provider stub_AWSDriver))
              (Some (identity stub_AWSDriver)) = Ok d.
Proof.
  refine (proj2 (new_driver_succeeds_iff stub_settings AWSDriver
                   (provider stub_AWSDriver) (identity stub_AWSDriver) _) _).
  - right. left. reflexivity.
  - split; [reflexivity |]. split; [reflexivity |]. eexists. reflexivity.
Defined.

(** The driver that construction returns holds the provider and the
    identity it was given and the connection the provider opened, with the
    same primitives. The OpenStack driver has pinned the configured region
    in both fields of that connection; the other drivers leave the
    connection as the provider returned it. *)
Theorem new_driver_holds_connection (settings : Settings) (cls : DriverCls)
    (p : Provider) (i : Identity) (d : Driver) :
  new_driver settings cls (Some p) (Some i) = Ok d ->
  provider d = p /\ identity d = i /\ driver_cls d = cls
  /\ exists c, get_driver p i = Ok c
       /\ list_nodes (_connection d) = list_nodes c
       /\ list_images (_connection d) = list_images c
       /\ list_sizes (_connection d) = list_sizes c
       /\ list_volumes (_connection d) = list_volumes c
       /\ deploy_node (_connection d) = deploy_node c
       /\ ex_deploy_to_node (_connection d) = ex_deploy_to_node c
       /\ (cls = OSDriver ->
           _ex_force_service_region (_connection d)
             = Some (OPENSTACK_DEFAULT_REGION settings)
           /\ service_region (_connection d)
             = Some (OPENSTACK_DEFAULT_REGION settings))
       /\ (cls <> OSDriver -> _connection d = c).
Proof.
  intros Hd.
  assert (Hesh : forall k d', EshDriver__init__ k (Some p) (Some i) = Ok d' ->
            exists c, get_driver p i = Ok c
              /\ d' = {| driver_cls := k; provider := p; identity := i;
                         _connection := c |}).
  { intros k d' H. unfold EshDriver__init__, LibcloudDriver__init__ in H.
    destruct (get_driver p i) as [c | e]; simpl in H; [| discriminate].
    exists c. split; [reflexivity |].
    destruct (isinstance _ (providerCls k)) as [[|] |]; simpl in H;
      try discriminate.
    destruct (isinstance _ (identityCls k)) as [[|] |]; simpl in H;
      try discriminate.
    congruence. }
  assert (Hshape : forall k c,
            k <> OSDriver ->
            let d' := {| driver_cls := k; provider := p; identity := i;
                         _connection := c |} in
            get_driver p i = Ok c ->
            provider d' = p /\ identity d' = i /\ driver_cls d' = k
            /\ exists c0, get_driver p i = Ok c0
                 /\ list_nodes (_connection d') = list_nodes c0
                 /\ list_images (_connection d') = list_images c0
                 /\ list_sizes (_connection d') = list_sizes c0
                 /\ list_volumes (_connection d') = list_volumes c0
                 /\ deploy_node (_connection d') = deploy_node c0
                 /\ ex_deploy_to_node (_connection d') = ex_deploy_to_node c0
                 /\ (k = OSDriver ->
                     _ex_force_service_region (_connection d')
                       = Some (OPENSTACK_DEFAULT_REGION settings)
                     /\ service_region (_connection d')
                       = Some (OPENSTACK_DEFAULT_REGION settings))
                 /\ (k <> OSDriver -> _connection d' = c0)).
  { intros k c Hk d' Hc. simpl.
    do 3 (split; [reflexivity |]). exists c.
    split; [exact Hc |]. do 6 (split; [reflexivity |]).
    split; [intros Hk'; contradiction | reflexivity]. }
  destruct cls; unfold new_driver in Hd.
  - unfold LibcloudDriver__init__ in Hd.
    destruct (get_driver p i) as [c | e] eqn:Hc; simpl in Hd;
      [| discriminate].
    injection Hd as <-. now apply Hshape.
  - destruct (Hesh _ _ Hd) as (c & Hc & ->). now apply Hshape.
  - unfold OSDriver__init__ in Hd.
    destruct (EshDriver__init__ OSDriver (Some p) (Some i)) as [d' | e] eqn:He;
      simpl in Hd; [| discriminate].
    destruct (Hesh _ _ He) as (c & Hc & ->). injection Hd as <-. simpl.
    do 3 (split; [reflexivity |]). exists c.
    split; [exact Hc |]. do 6 (split; [reflexivity |]).
    split; [intros _; split; reflexivity | intros Hk; contradiction].
  - destruct (Hesh _ _ Hd) as (c & Hc & ->). now apply Hshape.
  - destruct (Hesh _ _ Hd) as (c & Hc & ->). now apply Hshape.
Qed.

Lemma new_driver_holds_connection_witness :
  exists c, get_driver (provider stub_driver) os_identity = Ok c
    /\ deploy_node (_connection pinned_driver) = deploy_node c
    /\ service_region (_connection pinned_driver)
       = Some (OPENSTACK_DEFAULT_REGION stub_settings).
Proof.
  destruct (new_driver_holds_connection stub_settings OSDriver
              (provider stub_driver) os_identity pinned_driver eq_refl)
    as (_ & _ & _ & c & Hc & _ & _ & _ & _ & Hd & _ & Hr & _).
  exists c. split; [exact Hc |]. split; [exact Hd |].
  exact (proj2 (Hr eq_refl)).
Defined.

(** *** OpenStack: what [deploy_to] sends and what it lets through *)

Lemma update_if_not_lookup (kwargs : gmap string value) (k : string)
    (v : value) (k' : string) :
  update_if_not kwargs k v !! k'
  = if decide (k = k')
    then (if truthy (dict_get kwargs k) then kwargs !! k else Some v)
    else kwargs !! k'.
Proof.
  unfold update_if_not.
  destruct (truthy (dict_get kwargs k)) eqn:Ht; simpl.
  - destruct (decide (k = k')) as [-> |]; reflexivity.
  - rewrite lookup_insert. destruct (decide (k = k')); reflexivity.
Qed.

(** Called directly with an instance and a plan, [deploy_to] sends the
    connection [instance._node] followed by all its positional arguments.
    Of the keyword arguments, [ssh_key] and [timeout] keep the caller's
    value when it is true and get the default key path and 120 when it is
    absent or false (an empty key, a timeout of 0); every other keyword
    argument is sent as the caller gave it. *)
Theorem deploy_to_defaults (self : Driver) (i : EshInstance.t)
    (rest : list value) (kwargs : gmap string value) (w : World)
    (u : string) :
  truthy (dict_get kwargs "deploy") = true ->
  user (identity self) = UserObject u ->
  exists kw,
    received
      (Call "ex_deploy_to_node"
         (VNode (EshInstance._node i) :: VInstance i :: rest) kw)
      w (snd (OSDriver_deploy_to self (VInstance i :: rest) kwargs w))
    /\ kw !! "ssh_key"
       = (if truthy (dict_get kwargs "ssh_key") then kwargs !! "ssh_key"
          else Some (VStr private_key))
    /\ kw !! "timeout"
       = (if truthy (dict_get kwargs "timeout") then kwargs !! "timeout"
          else Some (VInt 120))
    /\ forall k, k <> "ssh_key" -> k <> "timeout" -> kw !! k = kwargs !! k.
Proof.
  intros Hd Hu.
  exists (update_if_not (update_if_not kwargs "ssh_key" (VStr private_key))
            "timeout" (VInt 120)).
  rewrite (deploy_to_runs self i rest kwargs w u Hd Hu). simpl.
  split; [reflexivity |].
  split; [| split].
  - rewrite !update_if_not_lookup. simpl. reflexivity.
  - rewrite update_if_not_lookup. simpl.
    unfold dict_get at 1. rewrite !update_if_not_lookup. simpl.
    fold (dict_get kwargs "timeout").
    destruct (truthy (dict_get kwargs "timeout")); reflexivity.
  - intros k Hk Ht. rewrite !update_if_not_lookup.
    destruct (decide ("timeout" = k)); [congruence |].
    destruct (decide ("ssh_key" = k)); [congruence | reflexivity].
Qed.

Lemma deploy_to_defaults_witness :
  exists kw,
    received
      (Call "ex_deploy_to_node" [VNode node1; VInstance instance1] kw)
      world0
      (snd (OSDriver_deploy_to stub_driver [VInstance instance1]
              (<["timeout" := VInt 0]> plan_kwargs) world0))
    /\ kw !! "timeout" = Some (VInt 120).
Proof.
  assert (Hd : truthy (dict_get (<["timeout" := VInt 0]> plan_kwargs)
                         "deploy") = true) by reflexivity.
  destruct (deploy_to_defaults stub_driver instance1 []
              (<["timeout" := VInt 0]> plan_kwargs) world0 "alice"
              Hd eq_refl) as (kw & Hr & _ & Ht & _).
  exists kw. split; [exact Hr | exact Ht].
Defined.

(** [deploy_to] handles no error of the primitive: whatever
    [ex_deploy_to_node] raises, a [DeploymentError] included, is raised to
    the caller, after the one information record has been logged and the
    one call made. *)
Theorem deploy_to_propagates (self : Driver) (i : EshInstance.t)
    (rest : list value) (kwargs : gmap string value) (w : World)
    (u : string) (e : exn) :
  truthy (dict_get kwargs "deploy") = true ->
  user (identity self) = UserObject u ->
  let kw := update_if_not (update_if_not kwargs "ssh_key" (VStr private_key))
                          "timeout" (VInt 120) in
  let args := VNode (EshInstance._node i) :: VInstance i :: rest in
  ex_deploy_to_node (_connection self) args kw (history w) = Raise e ->
  let run := OSDriver_deploy_to self (VInstance i :: rest) kwargs w in
  fst run = Raise e
  /\ received (Call "ex_deploy_to_node" args kw) w (snd run)
  /\ logs (snd run)
     = (logs w ++ [(INFO, LogMsg "Attempting deployment to node")])%list.
Proof.
  intros Hd Hu kw args He run. unfold run.
  rewrite (deploy_to_runs self i rest kwargs w u Hd Hu). simpl.
  fold kw. fold args. rewrite He. repeat split.
Qed.

Lemma deploy_to_propagates_witness :
  fst (OSDriver_deploy_to failing_driver [VInstance instance1] plan_kwargs
         world0)
  = Raise (DeploymentError "ssh timeout").
Proof.
  exact (proj1 (deploy_to_propagates failing_driver instance1 [] plan_kwargs
                  world0 "alice" (DeploymentError "ssh timeout")
                  eq_refl eq_refl eq_refl)).
Defined.

(** A first positional argument that is not an instance has no [_node]:
    [deploy_to] then raises an [AttributeError] after it has logged that it
    attempts the deployment, and the connection receives nothing. *)
Theorem deploy_to_not_an_instance (self : Driver) (a : value)
    (rest : list value) (kwargs : gmap string value) (w : World)
    (u : string) :
  truthy (dict_get kwargs "deploy") = true ->
  user (identity self) = UserObject u ->
  (forall i, a <> VInstance i) ->
  OSDriver_deploy_to self (a :: rest) kwargs w
  = (Raise (AttributeError "object has no attribute '_node'"),
     mkWorld (history w)
       (logs w ++ [(INFO, LogMsg "Attempting deployment to node")])
       (heap w)).
Proof.
  intros Hd Hu Ha.
  unfold OSDriver_deploy_to, bind, ret, lift, logger. simpl.
  rewrite Hd, Hu. simpl.
  destruct a as [x | n | i | d | r]; try reflexivity.
  exfalso. exact (Ha i eq_refl).
Qed.

Lemma deploy_to_not_an_instance_witness :
  fst (OSDriver_deploy_to stub_driver [VStr "i-1"] plan_kwargs world0)
  = Raise (AttributeError "object has no attribute '_node'").
Proof.
  refine (f_equal fst (deploy_to_not_an_instance stub_driver (VStr "i-1") []
                         plan_kwargs world0 "alice" eq_refl eq_refl _)).
  discriminate.
Defined.

(** *** OpenStack: the plan of [deploy_init_to] *)

(** The plan that [deploy_init_to] sends to the connection replaces any
    [deploy] the caller supplied. It has five steps, in this order: the log
    set-up, the package installation, the download of the agent, the
    [chmod], and the agent invocation for the resolved user name and token.
    The first is a plain script; the other four log to
    [/var/log/atmo/deploy.log]. *)
Theorem deploy_init_to_plan (settings : Settings)
    (str_of_object : value -> string) (self : Driver) (i : EshInstance.t)
    (rest : list value) (kwargs : gmap string value) (w : World)
    (u : string) :
  user (identity self) = UserObject u ->
  exists kw steps,
    received
      (Call "ex_deploy_to_node"
         (VNode (EshInstance._node i) :: VInstance i :: VInstance i :: rest)
         kw)
      w (snd (OSDriver_deploy_init_to settings str_of_object self
                (VInstance i :: rest) kwargs w))
    /\ kw !! "deploy" = Some (VDeployment (MultiStepDeployment steps))
    /\ step_name <$> steps
       = [Some "deploy_init_log.sh"; Some "deploy_aptget_update.sh";
          Some "deploy_wget_atmoinit.sh"; Some "deploy_chmod_atmoinit.sh";
          Some "deploy_call_atmoinit.sh"]
    /\ step_logfile <$> steps
       = [None; Some "/var/log/atmo/deploy.log";
          Some "/var/log/atmo/deploy.log"; Some "/var/log/atmo/deploy.log";
          Some "/var/log/atmo/deploy.log"]
    /\ steps !! 4%nat
       = Some (script_atmo_init settings str_of_object u
                 (init_token kwargs i)).
Proof.
  intros Hu.
  eexists. eexists.
  rewrite (deploy_init_to_object_user settings str_of_object self i rest
             kwargs w u Hu). simpl.
  split; [reflexivity |].
  split; [apply delegated_kwargs_lookup |].
  repeat split.
Qed.

Lemma deploy_init_to_plan_witness :
  exists kw steps,
    received
      (Call "ex_deploy_to_node"
         [VNode node1; VInstance instance1; VInstance instance1] kw)
      world0
      (snd (OSDriver_deploy_init_to stub_settings stub_str_of_object
              stub_driver [VInstance instance1] plan_kwargs world0))
    /\ kw !! "deploy" = Some (VDeployment (MultiStepDeployment steps))
    /\ length steps = 5%nat.
Proof.
  destruct (deploy_init_to_plan stub_settings stub_str_of_object stub_driver
              instance1 [] plan_kwargs world0 "alice" eq_refl)
    as (kw & steps & Hr & Hk & Hn & _).
  exists kw, steps. split; [exact Hr |]. split; [exact Hk |].
  apply (f_equal length) in Hn. rewrite length_fmap in Hn. exact Hn.
Defined.

Lemma str_app_assoc (a b c : string) :
  (a +:+ b) +:+ c = a +:+ (b +:+ c).
Proof.
  induction a as [| x a IH]; [reflexivity |].
  change (String x ((a +:+ b) +:+ c) = String x (a +:+ (b +:+ c))).
  f_equal. exact IH.
Qed.

Lemma awesome_atmo_call_token (settings : Settings)
    (str_of_object : value -> string) (u : string) (tok : value) :
  awesome_atmo_call settings str_of_object u tok
  = (atmo_init +:+ " --service_type=instance_service_v1"
     +:+ " --service_url=" +:+ INSTANCE_SERVICE_URL settings
     +:+ " --server=" +:+ SERVER_URL settings
     +:+ " --user_id=" +:+ u +:+ " --token=")
    +:+ py_str str_of_object tok
    +:+ " --vnc_license=" +:+ ATMOSPHERE_VNC_LICENSE settings.
Proof.
  unfold awesome_atmo_call. rewrite !str_app_assoc. reflexivity.
Qed.

(** The token of the agent invocation that reaches the connection. Without
    a [token] keyword argument, or with one that is false (an empty string,
    0, [None]), the command of the fifth step carries the id of the
    instance; with a true one it carries [str(token)]. In both cases the
    command names the user after [--user_id=], and the [token] keyword
    argument itself is handed on to the connection as the caller gave it. *)
Theorem deploy_init_to_token (settings : Settings)
    (str_of_object : value -> string) (self : Driver) (i : EshInstance.t)
    (rest : list value) (kwargs : gmap string value) (w : World)
    (u : string) :
  user (identity self) = UserObject u ->
  let before :=
    atmo_init +:+ " --service_type=instance_service_v1"
    +:+ " --service_url=" +:+ INSTANCE_SERVICE_URL settings
    +:+ " --server=" +:+ SERVER_URL settings
    +:+ " --user_id=" +:+ u +:+ " --token=" in
  let after := " --vnc_license=" +:+ ATMOSPHERE_VNC_LICENSE settings in
  exists kw steps command,
    received
      (Call "ex_deploy_to_node"
         (VNode (EshInstance._node i) :: VInstance i :: VInstance i :: rest)
         kw)
      w (snd (OSDriver_deploy_init_to settings str_of_object self
                (VInstance i :: rest) kwargs w))
    /\ kw !! "deploy" = Some (VDeployment (MultiStepDeployment steps))
    /\ step_script <$> steps !! 4%nat = Some (Some command)
    /\ kw !! "token" = kwargs !! "token"
    /\ (forall t, kwargs !! "token" = Some t -> truthy t = true ->
          command = before +:+ py_str str_of_object t +:+ after)
    /\ (forall t, kwargs !! "token" = Some t -> truthy t = false ->
          command = before +:+ EshInstance.id i +:+ after)
    /\ (kwargs !! "token" = None ->
          command = before +:+ EshInstance.id i +:+ after).
Proof.
  intros Hu before after.
  eexists. eexists. eexists.
  rewrite (deploy_init_to_object_user settings str_of_object self i rest
             kwargs w u Hu). simpl.
  split; [reflexivity |].
  split; [apply delegated_kwargs_lookup |].
  split; [reflexivity |].
  split; [apply delegated_kwargs_lookup; discriminate |].
  rewrite awesome_atmo_call_token. fold before. fold after.
  unfold init_token, dict_get_default.
  split; [| split].
  - intros t Ht Htr. rewrite Ht. simpl. now rewrite Htr.
  - intros t Ht Htr. rewrite Ht. simpl. now rewrite Htr.
  - intros Ht. rewrite Ht. reflexivity.
Qed.

Lemma deploy_init_to_token_witness :
  exists kw steps command,
    received
      (Call "ex_deploy_to_node"
         [VNode node1; VInstance instance1; VInstance instance1] kw)
      world0
      (snd (OSDriver_deploy_init_to stub_settings stub_str_of_object
              stub_driver [VInstance instance1] ∅ world0))
    /\ kw !! "deploy" = Some (VDeployment (MultiStepDeployment steps))
    /\ step_script <$> steps !! 4%nat = Some (Some command)
    /\ command
       = (atmo_init +:+ " --service_type=instance_service_v1"
          +:+ " --service_url=" +:+ INSTANCE_SERVICE_URL stub_settings
          +:+ " --server=" +:+ SERVER_URL stub_settings
          +:+ " --user_id=" +:+ "alice" +:+ " --token=")
         +:+ EshInstance.id instance1
         +:+ " --vnc_license=" +:+ ATMOSPHERE_VNC_LICENSE stub_settings.
Proof.
  destruct (deploy_init_to_token stub_settings stub_str_of_object
              stub_driver instance1 [] ∅ world0 "alice" eq_refl)
    as (kw & steps & command & Hr & Hd & Hs & _ & _ & _ & Hn).
  exists kw, steps, command.
  split; [exact Hr |]. split; [exact Hd |]. split; [exact Hs |].
  apply Hn. reflexivity.
Defined.

(** *** OpenStack: [_is_active_instance] on an incomplete [extra] *)

(** The three lookups run in the order status, task, power, before any
    test: the first key that [extra] lacks is the one reported by the
    [KeyError], and no boolean comes back, whatever status and task say. *)
Theorem is_active_instance_missing_key (self : Driver)
    (instance : EshInstance.t) :
  let extra := EshInstance.extra instance in
  (extra !! "status" = None ->
     _is_active_instance self instance = Raise (KeyError "status"))
  /\ (is_Some (extra !! "status") -> extra !! "task" = None ->
        _is_active_instance self instance = Raise (KeyError "task"))
  /\ (is_Some (extra !! "status") -> is_Some (extra !! "task") ->
        extra !! "power" = None ->
        _is_active_instance self instance = Raise (KeyError "power")).
Proof.
  intros extra. unfold _is_active_instance, getitem. fold extra.
  split; [| split].
  - intros ->. reflexivity.
  - intros [s ->] ->. reflexivity.
  - intros [s ->] [t ->] ->. reflexivity.
Qed.

Lemma is_active_instance_missing_key_witness :
  _is_active_instance stub_driver
    {| EshInstance._node := node1; EshInstance.id := "i-1";
       EshInstance.extra :=
         <["status" := AStr "active"]> (<["task" := ANone]> ∅) |}
  = Raise (KeyError "power").
Proof.
  refine (proj2 (proj2 (is_active_instance_missing_key stub_driver
            {| EshInstance._node := node1; EshInstance.id := "i-1";
               EshInstance.extra :=
                 <["status" := AStr "active"]> (<["task" := ANone]> ∅) |}))
            _ _ _).
  - eexists. reflexivity.
  - eexists. reflexivity.
  - reflexivity.
Defined.

(** *** AWS: more on [filter_machines] *)

Lemma prefix_spec (w s : string) :
  String.prefix w s = true <-> exists post, s = w +:+ post.
Proof.
  revert s. induction w as [| x w IH]; intros s.
  - split; [intros _; exists s; reflexivity |].
    intros _. now destruct s.
  - destruct s as [| y s]; simpl.
    + split; [discriminate | intros [post H]; discriminate].
    + destruct (Ascii.ascii_dec x y) as [-> | Hne].
      * rewrite IH. split; intros [post H]; exists post.
        -- subst s. reflexivity.
        -- injection H as H. exact H.
      * split; [discriminate |].
        intros [post H]. injection H as Hxy _. congruence.
Qed.

Lemma str_contains_spec (w s : string) :
  str_contains w s = true <-> exists pre post, s = pre +:+ w +:+ post.
Proof.
  induction s as [| c s IH]; cbn [str_contains];
    rewrite orb_true_iff, prefix_spec.
  - split.
    + intros [[post H] | H]; [| discriminate].
      exists EmptyString, post. exact H.
    + intros (pre & post & H). left.
      destruct pre; [exists post; exact H | discriminate].
  - rewrite IH. split.
    + intros [[post H] | (pre & post & H)].
      * exists EmptyString, post. exact H.
      * exists (String c pre), post. subst s. reflexivity.
    + intros (pre & post & H). destruct pre as [| x pre].
      * left. exists post. exact H.
      * right. exists pre, post. injection H as _ H. exact H.
Qed.

(** The alias stage never raises, and keeps a machine exactly when "aki-"
    or "ari-" occurs in its alias as a contiguous substring, anywhere. *)
Theorem alias_stage_keeps_kernels_and_ramdisks (m : EshMachine.t) :
  exists b, alias_cond m = Ok b
    /\ (b = true <->
        exists pre post,
          EshMachine.alias m = pre +:+ "aki-" +:+ post
          \/ EshMachine.alias m = pre +:+ "ari-" +:+ post).
Proof.
  exists (has_kernel_alias m). split; [apply alias_cond_Ok |].
  unfold has_kernel_alias. rewrite orb_true_iff, !str_contains_spec.
  split.
  - intros [(pre & post & H) | (pre & post & H)]; exists pre, post; auto.
  - intros (pre & post & [H | H]); [left | right]; eauto.
Qed.

(** On machines whose images report their owner, a machine is in the result
    exactly when it is one of the given machines, no word of the extended
    block-list matches it, its alias names a kernel or ramdisk image, and it
    is owned by the known owner id or by one of the two owner aliases. *)
Theorem filter_machines_membership
    (matches : string -> EshMachine.t -> bool) (self : Driver)
    (machines : list EshMachine.t) (black_list : option loc) (w : World) :
  let l := default filter_machines__defaults__ black_list in
  let words := (heap_list w l ++ fixed_terms)%list in
  (forall m, In m (survivors matches words machines) -> has_owner m) ->
  exists r,
    fst (AWSDriver_filter_machines matches self machines black_list w) = Ok r
    /\ forall m,
         In m r <->
         In m machines
         /\ blocked matches words m = false
         /\ has_kernel_alias m = true
         /\ (owner_id_match m = true \/ owner_alias_match m = true).
Proof.
  intros l words H.
  eexists. split; [apply filter_machines_total; exact H |].
  fold l. fold words. intros m.
  rewrite in_app_iff, !filter_In. unfold survivors.
  rewrite !filter_In, negb_true_iff. tauto.
Qed.

Lemma filter_machines_membership_witness :
  exists r,
    fst (AWSDriver_filter_machines stub_matches stub_AWSDriver
           [machine_A; machine_D] None world0) = Ok r
    /\ (In machine_A r <->
        In machine_A [machine_A; machine_D]
        /\ blocked stub_matches ([] ++ fixed_terms) machine_A = false
        /\ has_kernel_alias machine_A = true
        /\ (owner_id_match machine_A = true
            \/ owner_alias_match machine_A = true)).
Proof.
  destruct (filter_machines_membership stub_matches stub_AWSDriver
              [machine_A; machine_D] None world0) as (r & Hr & Hm).
  - intros m [<- | []]. split; eexists; reflexivity.
  - exists r. split; [exact Hr | exact (Hm machine_A)].
Defined.

Lemma _filter_machines_raises {A} (cond : A -> Result bool) (e : exn)
    (ms : list A) :
  (forall m, In m ms -> cond m = Raise e \/ exists b, cond m = Ok b) ->
  (exists m, In m ms /\ cond m = Raise e) ->
  _filter_machines ms cond = Raise e.
Proof.
  induction ms as [| m ms IH]; intros Hall (x & Hx & Hr); [contradiction |].
  simpl.
  destruct (Hall m (or_introl eq_refl)) as [-> | [b Hb]]; [reflexivity |].
  rewrite Hb.
  rewrite IH; [reflexivity | |].
  - intros y Hy. apply Hall. right. exact Hy.
  - destruct Hx as [<- | Hx]; [congruence | eauto].
Qed.

Lemma ownerid_cond_cases (m : EshMachine.t) :
  ownerid_cond m = Raise (KeyError "ownerid")
  \/ exists b, ownerid_cond m = Ok b.
Proof.
  unfold ownerid_cond, getitem. cbn [any_].
  destruct (NodeImage.extra (EshMachine._image m) !! "ownerid") as [v |];
    cbn [result_bind]; [right | left; reflexivity].
  destruct (py_eq (AStr "099720109477") v); eauto.
Qed.

Lemma ownerid_cond_missing (m : EshMachine.t) :
  NodeImage.extra (EshMachine._image m) !! "ownerid" = None ->
  ownerid_cond m = Raise (KeyError "ownerid").
Proof.
  intros H. unfold ownerid_cond, getitem. cbn [any_]. now rewrite H.
Qed.

(** A machine that passes the block-list and the alias stage but whose image
    has no [ownerid] makes the call raise [KeyError]; the block-list has been
    extended all the same. Machines dropped by the first two stages are
    never asked for their owner. *)
Theorem filter_machines_missing_ownerid
    (matches : string -> EshMachine.t -> bool) (self : Driver)
    (machines : list EshMachine.t) (black_list : option loc) (w : World)
    (m : EshMachine.t) :
  let l := default filter_machines__defaults__ black_list in
  let words := (heap_list w l ++ fixed_terms)%list in
  In m (survivors matches words machines) ->
  NodeImage.extra (EshMachine._image m) !! "ownerid" = None ->
  let run := AWSDriver_filter_machines matches self machines black_list w in
  fst run = Raise (KeyError "ownerid")
  /\ heap_list (snd run) l = words.
Proof.
  intros l words Hin Hm run. unfold run.
  rewrite filter_machines_unfold. simpl. fold l. fold words. split.
  - rewrite (_filter_machines_raises ownerid_cond (KeyError "ownerid")).
    + reflexivity.
    + intros x _. apply ownerid_cond_cases.
    + exists m. split; [exact Hin | now apply ownerid_cond_missing].
  - unfold heap_list at 1, extended. simpl. now rewrite lookup_insert_eq.
Qed.

Lemma filter_machines_missing_ownerid_witness :
  fst (AWSDriver_filter_machines stub_matches stub_AWSDriver
         [{| EshMachine._image :=
               {| NodeImage.id := "aki-9"; NodeImage.name := "aki-9";
                  NodeImage.extra := ∅ |};
             EshMachine.alias := "aki-9" |}] None world0)
  = Raise (KeyError "ownerid").
Proof.
  refine (proj1 (filter_machines_missing_ownerid stub_matches stub_AWSDriver
            [{| EshMachine._image :=
                  {| NodeImage.id := "aki-9"; NodeImage.name := "aki-9";
                     NodeImage.extra := ∅ |};
                EshMachine.alias := "aki-9" |}] None world0
            {| EshMachine._image :=
                 {| NodeImage.id := "aki-9"; NodeImage.name := "aki-9";
                    NodeImage.extra := ∅ |};
               EshMachine.alias := "aki-9" |} _ _)).
  - left. reflexivity.
  - reflexivity.
Defined.

Lemma filter_machines_calls_heap
    (matches : string -> EshMachine.t -> bool) (self : Driver)
    (calls : list (list EshMachine.t)) (w : World) :
  heap_list (filter_machines_calls matches self calls w)
    filter_machines__defaults__
  = (heap_list w filter_machines__defaults__
     ++ concat (replicate (length calls) fixed_terms))%list.
Proof.
  revert w. induction calls as [| ms cs IH]; intros v; simpl.
  - now rewrite app_nil_r.
  - unfold filter_machines_calls in *. simpl. rewrite IH.
    rewrite filter_machines_unfold. simpl.
    unfold heap_list at 1, extended. simpl. rewrite lookup_insert_eq.
    simpl. rewrite <- app_assoc. reflexivity.
Qed.

(** Every call that omits [black_list] leaves four more words in the shared
    default list: after [n] such calls it holds its former words followed
    by [n] copies of the fixed terms, whatever machines were filtered and
    whether or not the calls raised. *)
Theorem filter_machines_default_grows
    (matches : string -> EshMachine.t -> bool) (self : Driver)
    (calls : list (list EshMachine.t)) (w : World) :
  heap_list (filter_machines_calls matches self calls w)
    filter_machines__defaults__
  = (heap_list w filter_machines__defaults__
     ++ concat (replicate (length calls) fixed_terms))%list
  /\ length (heap_list (filter_machines_calls matches self calls world0)
               filter_machines__defaults__)
     = (4 * length calls)%nat.
Proof.
  split; [apply filter_machines_calls_heap |].
  rewrite filter_machines_calls_heap.
  change (heap_list world0 filter_machines__defaults__) with (@nil string).
  rewrite app_nil_l.
  generalize (length calls) as n.
  induction n as [| n IH]; [reflexivity |].
  cbn [replicate concat]. rewrite length_app, IH. simpl. lia.
Qed.

Lemma blocked_same_words (matches : string -> EshMachine.t -> bool)
    (l1 l2 : list string) (m : EshMachine.t) :
  (forall x, In x l1 <-> In x l2) ->
  blocked matches l1 m = blocked matches l2 m.
Proof.
  intros H. unfold blocked.
  destruct (existsb (fun word => matches word m) l2) eqn:E2.
  - apply existsb_exists in E2 as (x & Hx & Hm).
    apply existsb_exists. exists x. split; [now apply H | exact Hm].
  - destruct (existsb (fun word => matches word m) l1) eqn:E1;
      [| reflexivity].
    apply existsb_exists in E1 as (x & Hx & Hm).
    assert (E : existsb (fun word => matches word m) l2 = true)
      by (apply existsb_exists; exists x; split; [now apply H | exact Hm]).
    congruence.
Qed.

Lemma survivors_same_words (matches : string -> EshMachine.t -> bool)
    (l1 l2 : list string) (machines : list EshMachine.t) :
  (forall x, In x l1 <-> In x l2) ->
  survivors matches l1 machines = survivors matches l2 machines.
Proof.
  intros H. unfold survivors. f_equal.
  apply List.filter_ext. intros m.
  now rewrite (blocked_same_words matches l1 l2 m H).
Qed.

Lemma In_concat_replicate (n : nat) (l : list string) (x : string) :
  In x (concat (replicate n l)) -> In x l.
Proof.
  induction n as [| n IH]; simpl; [contradiction |].
  rewrite in_app_iff. tauto.
Qed.

(** The words that pile up in the shared default do not change what a call
    returns: after any number of calls that omitted [black_list], a further
    such call returns what it would have returned before them. The leak is
    in the list, not in the answers. *)
Theorem filter_machines_answer_unchanged_by_repeats
    (matches : string -> EshMachine.t -> bool) (self : Driver)
    (calls : list (list EshMachine.t)) (machines : list EshMachine.t)
    (w : World) :
  fst (AWSDriver_filter_machines matches self machines None
         (filter_machines_calls matches self calls w))
  = fst (AWSDriver_filter_machines matches self machines None w).
Proof.
  rewrite !filter_machines_unfold. simpl.
  rewrite (filter_machines_calls_heap matches self calls w).
  rewrite (survivors_same_words matches
             ((heap_list w filter_machines__defaults__
               ++ concat (replicate (length calls) fixed_terms))
              ++ fixed_terms)
             (heap_list w filter_machines__defaults__ ++ fixed_terms)
             machines).
  - reflexivity.
  - intros x. rewrite !in_app_iff. split.
    + intros [[H | H] | H]; auto.
      right. exact (In_concat_replicate _ _ _ H).
    + intros [H | H]; auto.
Qed.

(** *** Which driver can do what *)

(** Starting, stopping, suspending, resuming and resizing an instance reach
    the connection on the OpenStack driver only, where each is handed to its
    extension primitive with the caller's arguments. On every other driver
    the call raises [NotImplementedError] and the connection receives
    nothing: the generic and converting drivers and the AWS driver fall back
    on the base class, the Eucalyptus driver says so itself. *)
Theorem instance_actions_by_driver
    (primitive : Connection -> string -> list value -> gmap string value ->
                 list call -> Result value)
    (a : action) (self : Driver) (args : list value)
    (kwargs : gmap string value) (w : World) :
  (driver_cls self = OSDriver ->
     instance_action primitive a self args kwargs w
     = (primitive (_connection self) (ex_primitive a) args kwargs (history w),
        mkWorld (history w ++ [Call (ex_primitive a) args kwargs])
                (logs w) (heap w)))
  /\ (driver_cls self <> OSDriver ->
        instance_action primitive a self args kwargs w
        = (Raise NotImplementedError, w)).
Proof.
  split.
  - intros H. destruct a; unfold instance_action, start_instance,
      stop_instance, suspend_instance, resume_instance, resize_instance;
      rewrite H; reflexivity.
  - intros H. destruct a; unfold instance_action, start_instance,
      stop_instance, suspend_instance, resume_instance, resize_instance;
      destruct (driver_cls self); try reflexivity; contradiction.
Qed.

Lemma instance_actions_by_driver_witness :
  instance_action stub_primitive Suspend stub_AWSDriver [] ∅ world0
  = (Raise NotImplementedError, world0).
Proof.
  refine (proj2 (instance_actions_by_driver stub_primitive Suspend
                   stub_AWSDriver [] ∅ world0) _).
  discriminate.
Defined.

(** Rebooting and destroying an instance, and destroying, attaching and
    detaching a volume, are the same on every driver: one call to the
    primitive of that purpose with the caller's arguments unchanged, whose
    outcome, result or error, is the outcome of the call. No driver converts
    the result or logs anything. *)
Theorem pass_through_on_every_driver
    (primitive : Connection -> string -> list value -> gmap string value ->
                 list call -> Result value)
    (o : passed_through) (self : Driver) (args : list value)
    (kwargs : gmap string value) (w : World) :
  pass_through primitive o self args kwargs w
  = (primitive (_connection self) (primitive_of o) args kwargs (history w),
     mkWorld (history w ++ [Call (primitive_of o) args kwargs]) (logs w)
             (heap w)).
Proof.
  destruct o; unfold pass_through, reboot_instance, destroy_instance,
    destroy_volume, attach_volume, detach_volume;
    destruct (driver_cls self); reflexivity.
Qed.

(** *** AWS: volumes *)

(** [create_volume] on the AWS driver makes one call to the connection's
    [create_volume] with the caller's positional arguments and with the
    caller's keyword arguments minus [description]: every other key is
    passed as given, and a call without [description] is passed unchanged.
    The result is the connection's, as it is. *)
Theorem AWS_create_volume_drops_description
    (primitive : Connection -> string -> list value -> gmap string value ->
                 list call -> Result value)
    (self : Driver) (args : list value) (kwargs : gmap string value)
    (w : World) :
  driver_cls self = AWSDriver ->
  exists kw,
    create_volume primitive self args kwargs w
    = (primitive (_connection self) "create_volume" args kw (history w),
       mkWorld (history w ++ [Call "create_volume" args kw]) (logs w)
               (heap w))
    /\ kw !! "description" = None
    /\ (forall k, k <> "description" -> kw !! k = kwargs !! k)
    /\ (kwargs !! "description" = None -> kw = kwargs).
Proof.
  intros H. exists (delete "description" kwargs).
  unfold create_volume. rewrite H.
  unfold AWSDriver_create_volume, LibcloudDriver_create_volume,
    call_primitive, invoke.
  assert (Hk : (if bool_decide (is_Some (kwargs !! "description"))
                then delete "description" kwargs else kwargs)
               = delete "description" kwargs).
  { case_bool_decide as Hd; [reflexivity |].
    symmetry. apply delete_id.
    destruct (kwargs !! "description") eqn:E; [| reflexivity].
    exfalso. apply Hd. eauto. }
  rewrite Hk. split; [reflexivity |].
  split; [apply lookup_delete_eq |].
  split.
  - intros k Hne. now rewrite lookup_delete_ne by congruence.
  - intros Hn. now apply delete_id.
Qed.

Lemma AWS_create_volume_drops_description_witness :
  exists kw,
    create_volume stub_primitive stub_AWSDriver [] volume_kwargs world0
    = (Ok (VBool true),
       mkWorld [Call "create_volume" [] kw] [] ∅)
    /\ kw !! "description" = None
    /\ kw !! "size" = Some (VInt 10).
Proof.
  destruct (AWS_create_volume_drops_description stub_primitive stub_AWSDriver
              [] volume_kwargs world0 eq_refl) as (kw & Hr & Hd & Hk & _).
  exists kw. split; [exact Hr |]. split; [exact Hd |].
  rewrite Hk by discriminate. reflexivity.
Defined.

(** On the other drivers [description] is sent along with the rest. *)
Example create_volume_keeps_description :
  history (snd (create_volume stub_primitive stub_driver [] volume_kwargs
                  world0))
  = [Call "create_volume" [] volume_kwargs].
Proof. reflexivity. Qed.

(** *** Arguments that are not handed on *)


(** *** The converting driver: writes *)

(** [create_instance] and [deploy_instance] of the converting driver hand
    the caller's arguments to [create_node] and [deploy_node] and wrap the
    node that comes back in the provider's instance class; an error of the
    primitive is raised as it is. [create_instance] first sends the two
    renderings of its arguments to the logger at debug level, so they are
    logged even when the creation fails; [deploy_instance] logs nothing. *)
Theorem converting_writes_wrap
    (create_node : Connection -> list value -> gmap string value ->
                   list call -> Result Node.t)
    (str_of_args : list value -> string)
    (str_of_kwargs : gmap string value -> string)
    (self : Driver) (args : list value) (kwargs : gmap string value)
    (w : World) :
  let wrap (r : Result Node.t) : Result EshInstance.t :=
    match r with
    | Ok n => Ok (instanceCls (provider self) n)
    | Raise e => Raise e
    end in
  EshDriver_create_instance create_node str_of_args str_of_kwargs self args
    kwargs w
  = (wrap (create_node (_connection self) args kwargs (history w)),
     mkWorld (history w ++ [Call "create_node" args kwargs])
       (logs w ++ [(DEBUG, LogMsg (str_of_args args));
                   (DEBUG, LogMsg (str_of_kwargs kwargs))])
       (heap w))
  /\ EshDriver_deploy_instance self args kwargs w
     = (wrap (deploy_node (_connection self) args kwargs (history w)),
        mkWorld (history w ++ [Call "deploy_node" args kwargs]) (logs w)
                (heap w)).
Proof.
  intros wrap. split.
  - unfold EshDriver_create_instance, LibcloudDriver_create_instance, bind,
      logger, invoke, ret. simpl. rewrite <- app_assoc. simpl.
    now destruct (create_node (_connection self) args kwargs (history w)).
  - unfold EshDriver_deploy_instance, LibcloudDriver_deploy_instance, bind,
      invoke, ret. simpl.
    now destruct (deploy_node (_connection self) args kwargs (history w)).
Qed.

(** *** AWS: [deploy_instance] *)

Section AWSDeploy.

Variable settings : Settings.
Variable str_of_object : value -> string.
Variable unnamed : nat -> string.
Variable datetime : Type.
Variable strptime : atom -> string -> Result datetime.

Let deploy_instance :=
  AWSDriver_deploy_instance settings str_of_object unnamed datetime strptime.

(** The whole run on a driver whose user carries a [username]. *)
Lemma AWS_deploy_instance_runs (self : Driver) (args : list value)
    (kwargs : gmap string value) (w : World) (u : string) :
  user (identity self) = UserObject u ->
  let kw := aws_kwargs settings str_of_object unnamed u kwargs in
  let w1 := mkWorld (history w ++ [Call "deploy_node" args kw])
              (logs w ++ aws_logs settings str_of_object unnamed u kwargs)
              (heap w) in
  deploy_instance self args kwargs w
  = (match deploy_node (_connection self) args kw (history w) with
     | Raise e => Raise e
     | Ok n =>
         let instance := instanceCls (provider self) n in
         match getitem (EshInstance.extra instance) "created" with
         | Raise e => Raise e
         | Ok c =>
             match strptime c "%Y-%m-%dT%H:%M:%SZ" with
             | Ok _ => Ok instance
             | Raise e => Raise e
             end
         end
     end, w1).
Proof.
  intros Hu kw w1.
  unfold deploy_instance, AWSDriver_deploy_instance.
  unfold bind at 1. unfold lift at 1. rewrite Hu. simpl getattr_username.
  cbv iota beta.
  unfold bind at 1. unfold logger at 1. cbv iota beta.
  unfold bind at 1.
  unfold rename_scripts, bind, logger, ret, step_name. simpl.
  unfold EshDriver_deploy_instance, LibcloudDriver_deploy_instance, bind,
    invoke, ret, lift. simpl.
  fold (aws_atmo_call settings str_of_object u
          (dict_get_default kwargs "token" (VStr EmptyString))).
  change (<["timeout":=VInt 400]> _) with kw.
  rewrite <- !app_assoc. simpl.
  change (mkWorld (history w ++ [Call "deploy_node" args kw]) _ (heap w))
    with w1.
  destruct (deploy_node (_connection self) args kw (history w)) as [n | e];
    [| reflexivity].
  destruct (getitem (EshInstance.extra (instanceCls (provider self) n))
              "created") as [c | e]; simpl; [| reflexivity].
  now destruct (strptime c "%Y-%m-%dT%H:%M:%SZ").
Qed.

(** A plain string for the user stops the AWS [deploy_instance] at its first
    statement: [AttributeError], nothing logged, nothing deployed. *)
Theorem AWS_deploy_instance_string_user (self : Driver) (args : list value)
    (kwargs : gmap string value) (w : World) (s : string) :
  user (identity self) = UserString s ->
  deploy_instance self args kwargs w
  = (Raise (AttributeError "'str' object has no attribute 'username'"), w).
Proof.
  intros Hu. unfold deploy_instance, AWSDriver_deploy_instance.
  unfold bind at 1. unfold lift at 1. rewrite Hu. reflexivity.
Qed.


(** The AWS [deploy_instance] handles no error: whatever [deploy_node]
    raises, a [DeploymentError] included, is raised to the caller; no
    [False] is returned in its place. *)
Theorem AWS_deploy_instance_propagates (self : Driver) (args : list value)
    (kwargs : gmap string value) (w : World) (u : string) (e : exn) :
  user (identity self) = UserObject u ->
  deploy_node (_connection self) args
    (aws_kwargs settings str_of_object unnamed u kwargs) (history w)
    = Raise e ->
  fst (deploy_instance self args kwargs w) = Raise e.
Proof.
  intros Hu He.
  rewrite (AWS_deploy_instance_runs self args kwargs w u Hu). simpl.
  now rewrite He.
Qed.

(** After the node has been deployed, the AWS [deploy_instance] parses the
    [created] time stamp of the new instance. It returns the instance, the
    node wrapped in the provider's class, only if the time stamp is there
    and parses; an instance without [created] ends the call in a [KeyError],
    and a time stamp that does not parse in the parser's error, although
    the connection has already deployed the node. *)
Theorem AWS_deploy_instance_checks_created (self : Driver)
    (args : list value) (kwargs : gmap string value) (w : World)
    (u : string) (n : Node.t) :
  user (identity self) = UserObject u ->
  let kw := aws_kwargs settings str_of_object unnamed u kwargs in
  deploy_node (_connection self) args kw (history w) = Ok n ->
  let instance := instanceCls (provider self) n in
  let run := deploy_instance self args kwargs w in
  received (Call "deploy_node" args kw) w (snd run)
  /\ (EshInstance.extra instance !! "created" = None ->
      fst run = Raise (KeyError "created"))
  /\ (forall c e, EshInstance.extra instance !! "created" = Some c ->
        strptime c "%Y-%m-%dT%H:%M:%SZ" = Raise e -> fst run = Raise e)
  /\ (forall c d, EshInstance.extra instance !! "created" = Some c ->
        strptime c "%Y-%m-%dT%H:%M:%SZ" = Ok d -> fst run = Ok instance).
Proof.
  intros Hu kw Hn instance run. unfold run.
  rewrite (AWS_deploy_instance_runs self args kwargs w u Hu). simpl.
  fold kw. rewrite Hn. fold instance. unfold getitem.
  split; [reflexivity |]. split; [| split].
  - intros ->. reflexivity.
  - intros c e -> ->. reflexivity.
  - intros c d -> ->. reflexivity.
Qed.

End AWSDeploy.

Lemma AWS_deploy_instance_string_user_witness :
  AWSDriver_deploy_instance stub_settings stub_str_of_object stub_unnamed
    unit stub_strptime
    (stub_AWS_deploying (UserString "alice") (Ok ec2_node)) [] ∅ world0
  = (Raise (AttributeError "'str' object has no attribute 'username'"),
     world0).
Proof.
  exact (AWS_deploy_instance_string_user stub_settings stub_str_of_object
           stub_unnamed unit stub_strptime
           (stub_AWS_deploying (UserString "alice") (Ok ec2_node)) [] ∅
           world0 "alice" eq_refl).
Defined.


Lemma AWS_deploy_instance_propagates_witness :
  fst (AWSDriver_deploy_instance stub_settings stub_str_of_object
         stub_unnamed unit stub_strptime
         (stub_AWS_deploying alice (Raise (DeploymentError "ssh timeout")))
         [] ∅ world0)
  = Raise (DeploymentError "ssh timeout").
Proof.
  exact (AWS_deploy_instance_propagates stub_settings stub_str_of_object
           stub_unnamed unit stub_strptime
           (stub_AWS_deploying alice (Raise (DeploymentError "ssh timeout")))
           [] ∅ world0 "alice" (DeploymentError "ssh timeout")
           eq_refl eq_refl).
Defined.

Lemma AWS_deploy_instance_checks_created_witness :
  fst (AWSDriver_deploy_instance stub_settings stub_str_of_object
         stub_unnamed unit stub_strptime
         (stub_AWS_deploying alice (Ok node1)) [] ∅ world0)
  = Raise (KeyError "created").
Proof.
  refine (proj1 (proj2 (AWS_deploy_instance_checks_created stub_settings
            stub_str_of_object stub_unnamed unit stub_strptime
            (stub_AWS_deploying alice (Ok node1)) [] ∅ world0 "alice" node1
            eq_refl eq_refl)) _).
  reflexivity.
Defined.

(** With a time stamp that parses, the wrapped instance comes back. *)
Example AWS_deploy_instance_ok :
  fst (AWSDriver_deploy_instance stub_settings stub_str_of_object
         stub_unnamed unit stub_strptime
         (stub_AWS_deploying alice (Ok ec2_node)) [] ∅ world0)
  = Ok (instanceCls (provider stub_AWSDriver) ec2_node).
Proof. reflexivity. Qed.

(** *** AWS: the names of the steps *)

Lemma prefix_app (w post : string) : String.prefix w (w +:+ post) = true.
Proof. apply prefix_spec. exists post. reflexivity. Qed.

Lemma replace_from_skip (old new pre s : string) :
  replace_from old new (String.length pre) (pre +:+ s)
  = replace_from old new 0 s.
Proof.
  induction pre as [| c pre IH]; [reflexivity | exact IH].
Qed.

Lemma replace_from_occurrence (c : Ascii.ascii) (o new rest : string) :
  replace_from (String c o) new 0 (String c o +:+ rest)
  = new +:+ replace_from (String c o) new 0 rest.
Proof.
  change (String c o +:+ rest) with (String c (o +:+ rest)).
  cbn [replace_from].
  change (String c (o +:+ rest)) with (String c o +:+ rest).
  rewrite prefix_app. f_equal.
  change (String.length (String c o) - 1)%nat with (String.length o - 0)%nat.
  rewrite Nat.sub_0_r. apply replace_from_skip.
Qed.

Lemma replace_from_absent (c : Ascii.ascii) (o new s : string) :
  str_contains (String c o) s = false ->
  replace_from (String c o) new 0 s = s.
Proof.
  induction s as [| x s IH]; [reflexivity |].
  cbn [str_contains replace_from]. intros H.
  apply orb_false_iff in H as [Hp Hs].
  rewrite Hp. f_equal. apply IH. exact Hs.
Qed.

(** The renaming of the AWS steps moves a script that libcloud placed under
    [/root] to the same path under [/home/ubuntu], and leaves a name in
    which [/root] does not occur as it is. *)
Theorem rename_step_moves_root_to_home (script name rest : string) :
  (str_contains "/root" rest = false ->
     rename_step (ScriptDeployment script ("/root" +:+ rest))
     = ScriptDeployment script ("/home/ubuntu" +:+ rest))
  /\ (str_contains "/root" name = false ->
        rename_step (ScriptDeployment script name)
        = ScriptDeployment script name).
Proof.
  split; intros H; unfold rename_step; f_equal.
  - etransitivity;
      [exact (replace_from_occurrence (Ascii.ascii_of_nat 47) "root"
                "/home/ubuntu" rest) |].
    f_equal.
    exact (replace_from_absent (Ascii.ascii_of_nat 47) "root" "/home/ubuntu"
             rest H).
  - exact (replace_from_absent (Ascii.ascii_of_nat 47) "root" "/home/ubuntu"
             name H).
Qed.

Lemma rename_step_moves_root_to_home_witness :
  rename_step (ScriptDeployment "sudo chmod a+x /usr/sbin/atmo_init_full.py"
                 ("/root" +:+ "/deployment_2.sh"))
  = ScriptDeployment "sudo chmod a+x /usr/sbin/atmo_init_full.py"
      ("/home/ubuntu" +:+ "/deployment_2.sh").
Proof.
  refine (proj1 (rename_step_moves_root_to_home
                   "sudo chmod a+x /usr/sbin/atmo_init_full.py"
                   EmptyString "/deployment_2.sh") _).
  reflexivity.
Defined.

(** *** Drivers from the settings *)

(** [OSDriver.settings_init] needs [username], [password] and
    [tenant_name] in [settings.OPENSTACK_ARGS]: when one of them is missing
    it raises the [ServiceException] that names the three fields, whatever
    else the settings hold. When the three are there, the identity is built
    from the user name, the password and keyword arguments that are the
    settings themselves, the three fields still among them, with
    [ex_tenant_name] added; the driver is then constructed as usual. *)
Theorem OSDriver_settings_init_fields (settings : Settings)
    (OPENSTACK_ARGS : gmap string value) (OSProvider_new : Result Provider)
    (OSIdentity_new :
       Provider -> value -> value -> gmap string value -> Result Identity) :
  let run := OSDriver_settings_init settings OPENSTACK_ARGS OSProvider_new
               OSIdentity_new in
  ((OPENSTACK_ARGS !! "username" = None
    \/ OPENSTACK_ARGS !! "password" = None
    \/ OPENSTACK_ARGS !! "tenant_name" = None) ->
   run = Raise (ServiceException settings_init_unavailable))
  /\ (forall username password tenant_name p i,
        OPENSTACK_ARGS !! "username" = Some username ->
        OPENSTACK_ARGS !! "password" = Some password ->
        OPENSTACK_ARGS !! "tenant_name" = Some tenant_name ->
        OPENSTACK_ARGS !! "ex_tenant_name" = None ->
        OSProvider_new = Ok p ->
        let kw := <["ex_tenant_name" := tenant_name]> OPENSTACK_ARGS in
        OSIdentity_new p username password kw = Ok i ->
        run = new_driver settings OSDriver (Some p) (Some i)
        /\ kw !! "username" = Some username
        /\ kw !! "password" = Some password
        /\ kw !! "tenant_name" = Some tenant_name
        /\ kw !! "ex_tenant_name" = Some tenant_name).
Proof.
  intros run. unfold run, OSDriver_settings_init, dict_pop. split.
  - intros H.
    destruct (OPENSTACK_ARGS !! "username") as [u |] eqn:Hu; simpl;
      [| reflexivity].
    rewrite lookup_delete_ne by discriminate.
    destruct (OPENSTACK_ARGS !! "password") as [p |] eqn:Hp; simpl;
      [| reflexivity].
    rewrite !lookup_delete_ne by discriminate.
    destruct (OPENSTACK_ARGS !! "tenant_name") as [t |] eqn:Ht; simpl;
      [| reflexivity].
    destruct H as [H | [H | H]]; discriminate.
  - intros u pw t p i Hu Hp Ht He Hprov Hi.
    rewrite Hu. simpl. rewrite lookup_delete_ne by discriminate.
    rewrite Hp. simpl. rewrite !lookup_delete_ne by discriminate.
    rewrite Ht. simpl. rewrite Hprov. simpl. rewrite He.
    rewrite bool_decide_eq_false_2 by (intros [x Hx]; discriminate).
    rewrite Hi. simpl.
    split; [reflexivity |].
    rewrite !lookup_insert_ne by discriminate.
    rewrite lookup_insert_eq. auto.
Qed.

Lemma OSDriver_settings_init_fields_witness :
  OSDriver_settings_init stub_settings
    (<["username" := VStr "atmoadmin"]> ∅)
    (Ok (provider stub_driver)) (fun _ _ _ _ => Ok os_identity)
  = Raise (ServiceException settings_init_unavailable).
Proof.
  refine (proj1 (OSDriver_settings_init_fields stub_settings
                   (<["username" := VStr "atmoadmin"]> ∅)
                   (Ok (provider stub_driver))
                   (fun _ _ _ _ => Ok os_identity)) _).
  right. left. reflexivity.
Defined.
